(** * DMP: audio evaluation batch and story meta-tag parser

    A shallow embedding of the two scripts of the repository:
    - [modifiedHierarcy.py]: [StoryProcessor.parse_meta_tags_json], the
      normalisation of the text a model returns into a meta-tag record;
    - [audioEval.py]: duration probing, token and cost estimation, the
      translation call and the batch driver [process_all_audio_files].

    Python values are embedded as follows.  A [str] is the list of its code
    points, so [len] is [length].  A [float] is a binary64 number
    ([PrimFloat]).  A [dict] is the list of its items in insertion order.
    An exception is a value of [exn]; a call that may raise returns a
    [result].  The standard library ([json], [ast]), the network and the
    file system are parameters of the functions that use them. *)

From Stdlib Require Import String Ascii.
From Stdlib Require Import List ZArith NArith Bool Lia.
From Stdlib Require Import Floats Uint63 DecimalString.
Import ListNotations.

Set Warnings "-register-all".
Set Warnings "-inexact-float".

(* ================================================================== *)
(** * The fragment of the Python runtime the scripts rely on *)
(* ================================================================== *)

Module Py.

(** ** Strings *)

Definition codepoint := N.
Definition str := list codepoint.

(** A literal of the source, given by its ASCII text. *)
Definition py (s : String.string) : str :=
  map Ascii.N_of_ascii (String.list_ascii_of_string s).

Definition nl : codepoint := 10%N.

Fixpoint str_eqb (a b : str) : bool :=
  match a, b with
  | [], [] => true
  | x :: a', y :: b' => N.eqb x y && str_eqb a' b'
  | _, _ => false
  end.

(** [str.isspace] on one code point: the characters [str.strip()] removes. *)
Definition isspace (c : codepoint) : bool :=
  ((9 <=? c) && (c <=? 13) || (28 <=? c) && (c <=? 32)
   || (c =? 133) || (c =? 160) || (c =? 5760)
   || (8192 <=? c) && (c <=? 8202)
   || (c =? 8232) || (c =? 8233) || (c =? 8239) || (c =? 8287)
   || (c =? 12288))%N.

Fixpoint lstrip (s : str) : str :=
  match s with
  | c :: s' => if isspace c then lstrip s' else s
  | [] => []
  end.

Definition rstrip (s : str) : str := rev (lstrip (rev s)).

(** [s.strip()] *)
Definition strip (s : str) : str := rstrip (lstrip s).

(** [s.startswith(p)] *)
Fixpoint startswith (s p : str) {struct p} : bool :=
  match p, s with
  | [], _ => true
  | x :: p', y :: s' => N.eqb x y && startswith s' p'
  | _ :: _, [] => false
  end.

(** [s.endswith(p)] *)
Definition endswith (s p : str) : bool := startswith (rev s) (rev p).

(** [s[n:]] and [s[:-n]] for a literal [n]. *)
Definition slice_from (n : nat) (s : str) : str := skipn n s.
Definition slice_drop_last (n : nat) (s : str) : str :=
  firstn (length s - n) s.

(** [bool(s)] for a string: non-empty. *)
Definition truthy (s : str) : bool :=
  match s with [] => false | _ :: _ => true end.

(** ** Numbers *)

(** [float(n)] for a non-negative [int] that is a length or a size in bytes
    (below [2^63], the bound [sys.maxsize] puts on both). *)
Definition float_of_size (n : Z) : float := PrimFloat.of_uint63 (Uint63.of_Z n).

(** [x] is positive: it is [+inf], or finite and positive with a binary
    exponent of at least [k]. *)
Definition positive_from (k : Z) (x : float) : Prop :=
  match Prim2SF x with
  | S754_infinity false => True
  | S754_finite false _ e => (k <= e)%Z
  | _ => False
  end.

(** [str(n)] for an [int]. *)
Definition str_of_int (z : Z) : str :=
  py (NilZero.string_of_int (Z.to_int z)).

(** ** Values *)

(** The objects [json.loads], [response.json()] and [ast.literal_eval] build.
    [PyObj] stands for an object of any other type a Python literal can
    denote (tuple, set, bytes, complex, Ellipsis), kept by its [repr]. *)
Inductive value :=
| PyNone
| PyBool (b : bool)
| PyInt (z : Z)
| PyFloat (f : float)
| PyStr (s : str)
| PyList (l : list value)
| PyDict (d : list (value * value))
| PyObj (repr : str).

Definition dict := list (value * value).

(** ** Exceptions *)

Inductive exn_class :=
| Exception
| ValueError
| JSONDecodeError
| SyntaxError
| TypeError
| AttributeError
| KeyError
| IndexError
| OSError
| ZeroDivisionError
| UnboundLocalError
| OtherError.

(** An exception: its class and its message.  The message is the one the
    source builds for the exceptions it raises itself; for an exception of
    the runtime the wording is given where it is fixed and left empty
    otherwise. *)
Record exn := mk_exn { exn_cls : exn_class; exn_msg : str }.

Definition exn_class_eqb (a b : exn_class) : bool :=
  match a, b with
  | Exception, Exception | ValueError, ValueError
  | JSONDecodeError, JSONDecodeError | SyntaxError, SyntaxError
  | TypeError, TypeError | AttributeError, AttributeError
  | KeyError, KeyError | IndexError, IndexError | OSError, OSError
  | ZeroDivisionError, ZeroDivisionError
  | UnboundLocalError, UnboundLocalError
  | OtherError, OtherError => true
  | _, _ => false
  end.

(** [isinstance(e, cls)]: every class derives from [Exception], and
    [json.JSONDecodeError] derives from [ValueError]. *)
Definition isinstance (e : exn) (cls : exn_class) : bool :=
  match cls with
  | Exception => true
  | ValueError =>
      match exn_cls e with ValueError | JSONDecodeError => true | _ => false end
  | _ => exn_class_eqb (exn_cls e) cls
  end.

(** The outcome of a call: the exception it raised or the value it returned. *)
Definition result (A : Type) : Type := (exn + A)%type.
Definition Ok {A} (a : A) : result A := inr a.
Definition Raise {A} (c : exn_class) (msg : str) : result A :=
  inl (mk_exn c msg).

Definition bind {A B} (r : result A) (k : A -> result B) : result B :=
  match r with
  | inl e => inl e
  | inr a => k a
  end.

(** ** Dictionaries with string look-ups *)

Definition key_is (f : str) (k : value) : bool :=
  match k with
  | PyStr s => str_eqb s f
  | _ => false
  end.

(** [f in d] for a string [f]. *)
Definition has_key (d : dict) (f : str) : bool :=
  existsb (fun kv => key_is f (fst kv)) d.

(** [d.get(f)], [None] when [f not in d]. *)
Fixpoint lookup (d : dict) (f : str) : option value :=
  match d with
  | [] => None
  | (k, v) :: d' => if key_is f k then Some v else lookup d' f
  end.

Definition is_str (v : value) : bool :=
  match v with
  | PyStr _ => true
  | _ => false
  end.

(** Every value of the dictionary is a string. *)
Definition str_valued (d : dict) : bool :=
  forallb (fun kv => is_str (snd kv)) d.

(** [d[f] = v] when [f not in d]: the item goes last. *)
Definition insert_new (d : dict) (f : str) (v : value) : dict :=
  d ++ [(PyStr f, v)].

(** [str(v)], given [str] on the objects that are not strings. *)
Definition py_str (py_repr : value -> str) (v : value) : str :=
  match v with
  | PyStr s => s
  | _ => py_repr v
  end.

(** [v.get(k, default)] *)
Definition get (v : value) (k : str) (default : value) : result value :=
  match v with
  | PyDict d =>
      Ok (match lookup d k with
          | Some x => x
          | None => default
          end)
  | _ => Raise AttributeError []
  end.

(** [0 == k] *)
Definition key_is_zero (k : value) : bool :=
  match k with
  | PyInt z => Z.eqb z 0
  | PyBool b => negb b
  | PyFloat f => PrimFloat.eqb f 0
  | _ => false
  end.

(** [v[0]] *)
Definition item0 (v : value) : result value :=
  match v with
  | PyList (x :: _) => Ok x
  | PyList [] => Raise IndexError (py "list index out of range")
  | PyStr (c :: _) => Ok (PyStr [c])
  | PyStr [] => Raise IndexError (py "string index out of range")
  | PyDict d =>
      match find (fun kv => key_is_zero (fst kv)) d with
      | Some kv => Ok (snd kv)
      | None => Raise KeyError (py "0")
      end
  | _ => Raise TypeError []
  end.

(** [v[k]] for a string [k] *)
Definition item (v : value) (k : str) : result value :=
  match v with
  | PyDict d =>
      match lookup d k with
      | Some x => Ok x
      | None => Raise KeyError (py "'" ++ k ++ py "'")
      end
  | _ => Raise TypeError []
  end.

(** [v.strip()] *)
Definition strip_value (v : value) : result str :=
  match v with
  | PyStr s => Ok (strip s)
  | _ => Raise AttributeError []
  end.

(** [isinstance(v, (list, dict))] *)
Definition nested (v : value) : bool :=
  match v with
  | PyList _ | PyDict _ => true
  | _ => false
  end.

(** [max(1, x)]: the first argument unless the second is greater. *)
Definition max_1 (x : float) : float := if PrimFloat.ltb 1 x then x else 1%float.

End Py.

Import Py.

Declare Scope result_scope.
Delimit Scope result_scope with result.
Notation "x <- c ;; k" := (bind c (fun x => k))
  (at level 61, c at next level, right associativity) : result_scope.
Notation "' pat <- c ;; k" := (bind c (fun x => match x with pat => k end))
  (at level 61, pat pattern, c at next level, right associativity)
  : result_scope.

(* ================================================================== *)
(** * modifiedHierarcy.py: the structured output parser *)
(* ================================================================== *)

Module MetaTags.

Definition required_fields : list str :=
  [ py "character_primary"; py "character_secondary";
    py "setting_primary"; py "setting_secondary";
    py "theme_primary"; py "theme_secondary";
    py "events_primary"; py "events_secondary";
    py "emotions_primary"; py "emotions_secondary";
    py "keywords" ].

Definition not_specified : str := py "Not specified".
Definition error_parsing : str := py "Error parsing".

(** The dictionary the [except Exception] handler returns. *)
Definition error_record : dict :=
  map (fun f => (PyStr f, PyStr error_parsing)) required_fields.

Section Parser.

(** [json.loads], [ast.literal_eval], [json.dumps(_, ensure_ascii=False)]
    and [str] on an object that is not a string. *)
Variable json_loads : str -> result value.
Variable literal_eval : str -> result value.
Variable json_dumps : value -> result str.
Variable py_repr : value -> str.

(** Lines 148-153: trimming and removal of the code fence. *)
Definition clean (json_str : str) : str :=
  let s := strip json_str in
  let s := if startswith s (py "```json") then slice_from 7 s else s in
  let s := if endswith s (py "```") then slice_drop_last 3 s else s in
  strip s.

(** Lines 156-166: strict JSON first; on [json.JSONDecodeError] the Python
    literal.  The handler of [(ValueError, SyntaxError)] logs and re-raises,
    so whatever [ast.literal_eval] raises leaves the block. *)
Definition decode (s : str) : result value :=
  match json_loads s with
  | inr v => Ok v
  | inl e =>
      if isinstance e JSONDecodeError then
        match literal_eval s with
        | inr v => Ok v
        | inl e' => inl e'
        end
      else inl e
  end.

(** Lines 169-172. *)
Definition stringify_value (v : value) : result str :=
  match v with
  | PyList _ | PyDict _ => json_dumps v
  | _ => Ok (py_str py_repr v)
  end.

(** Lines 175-176: every value is replaced, in place and in order, by its
    string; an exception of [stringify_value] leaves the loop. *)
Fixpoint stringify_items (d : dict) : result dict :=
  match d with
  | [] => Ok []
  | (k, v) :: d' =>
      (s <- stringify_value v ;;
       r <- stringify_items d' ;;
       Ok ((k, PyStr s) :: r))%result
  end.

(** Lines 185-186, one turn of the loop over the required fields. *)
Definition fill_step (m : dict) (field : str) : dict :=
  if has_key m field then m else insert_new m field (PyStr not_specified).

(** Lines 184-186. *)
Definition fill_required (d : dict) : dict :=
  fold_left fill_step required_fields d.

(** Lines 148-188, the body of the outer [try].  [meta_dict.items()] raises
    [AttributeError] on an object that is not a dictionary. *)
Definition parse_body (json_str : str) : result dict :=
  (v <- decode (clean json_str) ;;
   match v with
   | PyDict d =>
       d' <- stringify_items d ;;
       Ok (fill_required d')
   | _ => Raise AttributeError []
   end)%result.

(** [StoryProcessor.parse_meta_tags_json]: the handler of [Exception] logs
    the error and the first 500 characters, and returns [error_record]. *)
Definition parse_meta_tags_json (json_str : str) : dict :=
  match parse_body json_str with
  | inr r => r
  | inl _ => error_record
  end.

End Parser.

End MetaTags.

(* ================================================================== *)
(** * audioEval.py: costs, the translation call and the batch driver *)
(* ================================================================== *)

Module AudioEval.

Local Open Scope float_scope.

Definition path := str.

(** What the script reads of a [requests.Response]. *)
Record response := mk_response {
  status_code : Z;
  resp_text : str;
  resp_json : result value
}.

(** [response.ok]: [raise_for_status()] would not raise. *)
Definition ok (r : response) : bool :=
  negb ((400 <=? status_code r)%Z && (status_code r <? 600)%Z).

(** The file system and the network, as the script observes them.  A
    request returns the response with the seconds the clock gave between
    [start_time] and [end_time], or raises. *)
Record world := mk_world {
  PYDUB_AVAILABLE : bool;
  (** [len(AudioSegment.from_file(p))], in milliseconds *)
  decode_length : path -> result Z;
  (** [os.path.getsize(p)] *)
  getsize : path -> result Z;
  (** [open(p, "rb")] *)
  open_rb : path -> result unit;
  (** the POST of [speech_to_text_sarvam] for a file *)
  post_sarvam : path -> result (response * float);
  (** the POST of [translate_with_gemini] for a prompt *)
  post_translate : str -> result (response * float);
  (** the POST of [speech_to_text_gemini] for a file, by attempt *)
  post_gemini : path -> nat -> result (response * float);
  (** [Path(folder).rglob("*")], [p.suffix.lower()], [os.path.relpath] *)
  rglob : path -> list path;
  suffix_lower : path -> str;
  relpath : path -> path -> str
}.

(** ** Pricing constants *)

Definition SARVAM_PRICING : list (str * float) :=
  [ (py "saarika:v2.5", 0.00075) ].

(** [SARVAM_PRICING.get(model, default)] *)
Definition sarvam_price (model : str) (default : float) : float :=
  match find (fun kv => str_eqb (fst kv) model) SARVAM_PRICING with
  | Some kv => snd kv
  | None => default
  end.

Definition GEMINI_input_text : float := 0.3 / 1e6.
Definition GEMINI_input_audio : float := 1 / 1e6.
Definition GEMINI_output_text : float := 2.5 / 1e6.

(** ** [estimate_tokens] *)

(** [len(text)] as a float. *)
Definition flen (text : str) : float := float_of_size (Z.of_nat (length text)).

Definition estimate_tokens (text : str) : float :=
  if truthy text then flen text / 4 else 0.

Section Calls.

Variable py_repr : value -> str.
Variable w : world.

(** ** [get_audio_duration] *)

(** Lines 38-43 and 54-58: the estimate from the file size. *)
Definition size_estimate (file_path : path) : float :=
  match getsize w file_path with
  | inr file_size =>
      let estimated_duration := float_of_size file_size / 1048576 * 60 in
      max_1 estimated_duration
  | inl _ => 1
  end.

Definition get_audio_duration (file_path : path) : float :=
  if negb (PYDUB_AVAILABLE w) then size_estimate file_path
  else
    match decode_length w file_path with
    | inr ms => float_of_size ms / 1000
    | inl _ => size_estimate file_path
    end.

(** ** [speech_to_text_sarvam], called with the default model *)

Definition sarvam_model : str := py "saarika:v2.5".

Definition speech_to_text_sarvam (file_path : path)
  : result (value * value * float * float) :=
  (_ <- open_rb w file_path ;;
   '(response, latency) <- post_sarvam w file_path ;;
   if negb (status_code response =? 200)%Z then
     Raise Exception
       (py "Sarvam API Error: " ++ str_of_int (status_code response)
        ++ py " - " ++ resp_text response)
   else
     result <- resp_json response ;;
     transcript <- get result (py "transcript")
                     (PyStr (py "No transcript available")) ;;
     detected_lang <- get result (py "language_code") (PyStr (py "Unknown")) ;;
     let audio_duration := get_audio_duration file_path in
     let cost := audio_duration * sarvam_price sarvam_model 0.00002 in
     Ok (transcript, detected_lang, latency, cost))%result.

(** ** [translate_with_gemini] *)

Definition translation_prompt (text source_lang : value) : str :=
  py "Translate the following text from " ++ py_str py_repr source_lang
  ++ py " to English. Provide only the translation without any additional commentary:"
  ++ [nl; nl] ++ py_str py_repr text.

(** Line 124. *)
Definition translation_text (body : value) : result str :=
  (candidates <- get body (py "candidates") (PyList [PyDict []]) ;;
   candidate <- item0 candidates ;;
   content <- get candidate (py "content") (PyDict []) ;;
   parts <- get content (py "parts") (PyList [PyDict []]) ;;
   part <- item0 parts ;;
   text <- get part (py "text") (PyStr []) ;;
   strip_value text)%result.

(** Lines 127-130. *)
Definition translation_cost (prompt translation : str) : float :=
  let input_tokens := estimate_tokens prompt in
  let output_tokens := estimate_tokens translation in
  input_tokens * GEMINI_input_text + output_tokens * GEMINI_output_text.

(** The first component is [None] for the [None] of line 134. *)
Definition translate_with_gemini (text source_lang : value)
  : result (option str * float * float) :=
  let prompt := translation_prompt text source_lang in
  ('(response, latency) <- post_translate w prompt ;;
   if ok response then
     result <- resp_json response ;;
     translation <- translation_text result ;;
     Ok (Some translation, latency, translation_cost prompt translation)
   else Ok (None, latency, 0))%result.

(** ** [speech_to_text_gemini], called with [retries=2] *)

Definition gemini_prompt : str :=
  py "Please transcribe and translate the following audio into English. Return only the final English transcription, without any commentary or extra text.".

(** Lines 161-179: the attempts from [attempt] on, [left] of them. *)
Fixpoint gemini_attempts (file_path : path) (retries attempt left : nat)
  : result (response * float) :=
  match left with
  | O => Raise UnboundLocalError []
  | S left' =>
      ('(response, elapsed) <- post_gemini w file_path attempt ;;
       if (status_code response =? 429)%Z then
         if Nat.ltb attempt retries then
           gemini_attempts file_path retries (S attempt) left'
         else Raise Exception (py "Gemini API quota exceeded after retries.")
       else if negb (ok response) then
         Raise Exception
           (py "Gemini API Error " ++ str_of_int (status_code response)
            ++ py ": " ++ resp_text response)
       else Ok (response, elapsed))%result
  end.

(** Lines 183-186. *)
Definition gemini_text (body : value) : result str :=
  match (candidates <- item body (py "candidates") ;;
         candidate <- item0 candidates ;;
         content <- item candidate (py "content") ;;
         parts <- item content (py "parts") ;;
         part <- item0 parts ;;
         text <- item part (py "text") ;;
         strip_value text)%result with
  | inr t => Ok t
  | inl e =>
      if isinstance e KeyError || isinstance e IndexError
      then Ok (py "ERROR: Could not parse Gemini response")
      else inl e
  end.

Definition speech_to_text_gemini (file_path : path)
  : result (str * float * float) :=
  let retries := 2%nat in
  (_ <- open_rb w file_path ;;
   '(response, total_api_time) <-
      gemini_attempts file_path retries 0 (retries + 1) ;;
   result <- resp_json response ;;
   english_transcript <- gemini_text result ;;
   let audio_duration := get_audio_duration file_path in
   let input_audio_tokens := audio_duration * 50 in
   let input_text_tokens := estimate_tokens gemini_prompt in
   let output_tokens := estimate_tokens english_transcript in
   let cost := input_text_tokens * GEMINI_input_text
               + input_audio_tokens * GEMINI_input_audio
               + output_tokens * GEMINI_output_text in
   Ok (english_transcript, total_api_time, cost))%result.

(** ** The rows of the report *)

(** A cell of a row.  The rendering of a number by a format specification
    and of an exception by [str] is kept symbolic. *)
Inductive cell :=
| Text (s : str)
| Obj (v : value)         (* an object, written by [csv] as its [str] *)
| Secs1 (x : float)       (* f"{x:.1f}s" *)
| Secs2 (x : float)       (* f"{x:.2f}s" *)
| Usd6 (x : float)        (* f"${x:.6f}" *)
| Err (e : exn).          (* f"ERROR: {e}" *)

Definition row := list cell.

Definition header : row :=
  map Text
    [ py "filename"; py "duration"; py "sarvam_response";
      py "sarvam_total_latency"; py "sarvam_total_cost";
      py "translation_needed"; py "gemini_response"; py "gemini_latency";
      py "gemini_cost" ].

Definition NA : cell := Text (py "N/A").

(** Lines 264-274. *)
Definition error_row (filename : str) (e : exn) : row :=
  [ Text filename; NA; Err e; NA; NA; NA; Err e; NA; NA ].

(** ** The running totals *)

Record totals := mk_totals {
  total_sarvam_cost : float;
  total_gemini_cost : float;
  total_translation_cost : float;
  total_sarvam_time : float;
  total_gemini_time : float;
  total_translation_time : float
}.

Definition no_totals : totals := mk_totals 0 0 0 0 0 0.

Definition add_sarvam (latency cost : float) (t : totals) : totals :=
  mk_totals (total_sarvam_cost t + cost) (total_gemini_cost t)
    (total_translation_cost t) (total_sarvam_time t + latency)
    (total_gemini_time t) (total_translation_time t).

Definition add_translation (latency cost : float) (t : totals) : totals :=
  mk_totals (total_sarvam_cost t) (total_gemini_cost t)
    (total_translation_cost t + cost) (total_sarvam_time t)
    (total_gemini_time t) (total_translation_time t + latency).

Definition add_gemini (latency cost : float) (t : totals) : totals :=
  mk_totals (total_sarvam_cost t) (total_gemini_cost t + cost)
    (total_translation_cost t) (total_sarvam_time t)
    (total_gemini_time t + latency) (total_translation_time t).

(** Lines 277-292. *)
Definition totals_row (t : totals) : row :=
  let total_combined_sarvam_cost :=
    total_sarvam_cost t + total_translation_cost t in
  let total_combined_sarvam_time :=
    total_sarvam_time t + total_translation_time t in
  [ Text (py "TOTALS"); Text []; Text [];
    Secs2 total_combined_sarvam_time; Usd6 total_combined_sarvam_cost;
    Text []; Text [];
    Secs2 (total_gemini_time t); Usd6 (total_gemini_cost t) ].

(** ** The body of the loop *)

(** A computation of the [try] block: it may raise, and what it added to
    the totals before stays added. *)
Definition M (A : Type) : Type := totals -> result A * totals.

Definition ret {A} (a : A) : M A := fun t => (inr a, t).

Definition mbind {A B} (m : M A) (k : A -> M B) : M B :=
  fun t =>
    match m t with
    | (inl e, t') => (inl e, t')
    | (inr a, t') => k a t'
    end.

Definition call {A} (r : result A) : M A := fun t => (r, t).

Definition update (f : totals -> totals) : M unit := fun t => (inr tt, f t).

(** [sarvam_lang not in ['en-IN', 'en']] *)
Definition needs_translation (sarvam_lang : value) : bool :=
  negb (key_is (py "en-IN") sarvam_lang || key_is (py "en") sarvam_lang).

(** Lines 231-234. *)
Definition sarvam_response (sarvam_translation : option str)
  (sarvam_transcript : value) : value :=
  match sarvam_translation with
  | Some t => if truthy t then PyStr t else sarvam_transcript
  | None => sarvam_transcript
  end.

Definition yes_no (b : bool) : str := if b then py "Yes" else py "No".

(** Lines 216-260. *)
Definition try_block (file_path : path) (filename : str) : M row :=
  mbind (call (speech_to_text_sarvam file_path))
    (fun '(sarvam_transcript, sarvam_lang, sarvam_latency, sarvam_cost) =>
  mbind (update (add_sarvam sarvam_latency sarvam_cost)) (fun _ =>
  mbind
    (if needs_translation sarvam_lang then
       mbind (call (translate_with_gemini sarvam_transcript sarvam_lang))
         (fun '(sarvam_translation, translation_latency, translation_cost) =>
       mbind (update (add_translation translation_latency translation_cost))
         (fun _ =>
       ret (sarvam_response sarvam_translation sarvam_transcript,
            translation_latency, translation_cost)))
     else ret (sarvam_transcript, 0, 0))
    (fun '(sarvam_resp, translation_latency, translation_cost) =>
  let sarvam_total_cost := sarvam_cost + translation_cost in
  let sarvam_total_time := sarvam_latency + translation_latency in
  mbind (call (speech_to_text_gemini file_path))
    (fun '(gemini_resp, gemini_latency, gemini_cost) =>
  mbind (update (add_gemini gemini_latency gemini_cost)) (fun _ =>
  let duration := get_audio_duration file_path in
  ret [ Text filename; Secs1 duration; Obj sarvam_resp;
        Secs2 sarvam_total_time; Usd6 sarvam_total_cost;
        Text (yes_no (needs_translation sarvam_lang));
        Text gemini_resp; Secs2 gemini_latency; Usd6 gemini_cost ]))))).

(** Lines 214-274: one turn of the loop, with the handler of [Exception]. *)
Definition process_file (folder_path file_path : path) (t : totals)
  : row * totals :=
  let filename := relpath w file_path folder_path in
  match try_block file_path filename t with
  | (inr r, t') => (r, t')
  | (inl e, t') => (error_row filename e, t')
  end.

(** ** [process_all_audio_files] *)

Definition audio_extensions : list str :=
  [ py ".wav"; py ".mp3"; py ".m4a"; py ".ogg"; py ".flac" ].

(** Line 203. *)
Definition audio_files (folder_path : path) : list path :=
  filter (fun p => existsb (str_eqb (suffix_lower w p)) audio_extensions)
    (rglob w folder_path).

(** Lines 213-274: [results] and the totals after the loop. *)
Definition process_files (folder_path : path) (files : list path)
  : list row * totals :=
  fold_left
    (fun '(results, t) file_path =>
       let '(r, t') := process_file folder_path file_path t in
       (results ++ [r], t'))
    files ([], no_totals).

(** ** The CSV file (lines 295-308) *)

(** [s.encode("utf-8")] does not raise: no code point of [s] is a
    surrogate (U+D800 to U+DFFF). *)
Definition encodable (s : str) : bool :=
  forallb (fun c => negb ((55296 <=? c) && (c <=? 57343))%N) s.

(** Whether the text [csv] writes for a cell can be encoded.  [csv] writes
    a string as it is, nothing for [None] and [str(v)] for another object;
    a formatted number is a text of ASCII characters. *)
Definition cell_encodable (c : cell) : bool :=
  match c with
  | Text s => encodable s
  | Obj PyNone => true
  | Obj v => encodable (py_str py_repr v)
  | Err e => encodable (exn_msg e)
  | Secs1 _ | Secs2 _ | Usd6 _ => true
  end.

Definition row_encodable (r : row) : bool := forallb cell_encodable r.

(** [writer.writerows(results)] on the file opened with
    [encoding="utf-8"], outside any [try]: the rows are written in order;
    at the first row with a cell that cannot be encoded the write raises
    [UnicodeEncodeError], and the rows before it are in the file when the
    [with] block closes it.  The result is the rows in the file and the row
    the error was raised at.  That the file system takes the file is
    assumed. *)
Fixpoint writerows (rows : list row) : list row * option row :=
  match rows with
  | [] => ([], None)
  | r :: rows' =>
      if row_encodable r then
        (r :: fst (writerows rows'), snd (writerows rows'))
      else ([], Some r)
  end.

(** What a run leaves: the header, the rows handed to [writerows], the
    rows in the CSV file after the header, the row at which the write
    raised [UnicodeEncodeError], if any, and how the summary, which is
    reached when the write returned, ends (line 319 divides by the number
    of files). *)
Record report := mk_report {
  csv_header : row;
  csv_rows : list row;
  csv_file : list row;
  encode_error : option row;
  summary : result unit
}.

Definition process_all_audio_files (folder_path : path) : report :=
  let '(results, t) := process_files folder_path (audio_files folder_path) in
  let results := results ++ [totals_row t] in
  mk_report header results
    (fst (writerows results)) (snd (writerows results))
    (if Nat.eqb (length results - 1) 0
     then Raise ZeroDivisionError (py "division by zero")
     else Ok tt).

(** The row of a file (it does not depend on the totals so far). *)
Definition file_row (folder_path file_path : path) : row :=
  fst (process_file folder_path file_path no_totals).

(** ** The accounting of a file, stage by stage *)

(** Following the claims on the totals, for comparison with the driver: the
    latency and the cost of each stage of a file that returned, a stage
    being reached when the stages before it returned. *)
Record accrual := mk_accrual {
  by_sarvam : option (float * float);
  by_translation : option (float * float);
  by_gemini : option (float * float)
}.

Definition gemini_stage (file_path : path) : option (float * float) :=
  match speech_to_text_gemini file_path with
  | inr (_, gemini_latency, gemini_cost) => Some (gemini_latency, gemini_cost)
  | inl _ => None
  end.

Definition accrued (file_path : path) : accrual :=
  match speech_to_text_sarvam file_path with
  | inl _ => mk_accrual None None None
  | inr (sarvam_transcript, sarvam_lang, sarvam_latency, sarvam_cost) =>
      let sarvam := Some (sarvam_latency, sarvam_cost) in
      if needs_translation sarvam_lang then
        match translate_with_gemini sarvam_transcript sarvam_lang with
        | inl _ => mk_accrual sarvam None None
        | inr (_, translation_latency, translation_cost) =>
            mk_accrual sarvam (Some (translation_latency, translation_cost))
              (gemini_stage file_path)
        end
      else mk_accrual sarvam None (gemini_stage file_path)
  end.

Definition add_stage (add : float -> float -> totals -> totals)
  (stage : option (float * float)) (t : totals) : totals :=
  match stage with
  | Some (latency, cost) => add latency cost t
  | None => t
  end.

Definition add_accrual (a : accrual) (t : totals) : totals :=
  add_stage add_gemini (by_gemini a)
    (add_stage add_translation (by_translation a)
       (add_stage add_sarvam (by_sarvam a) t)).

(** The sum, in the order of the files, of what one stage accrued. *)
Definition sum_accrued (pick : accrual -> option float) (files : list path)
  : float :=
  fold_left
    (fun acc file_path =>
       match pick (accrued file_path) with
       | Some x => acc + x
       | None => acc
       end)
    files 0.

Definition latency_of (stage : option (float * float)) : option float :=
  option_map fst stage.
Definition cost_of (stage : option (float * float)) : option float :=
  option_map snd stage.

End Calls.

End AudioEval.

(* ================================================================== *)
(** * modifiedHierarcy.py: from the story files to the report *)
(* ================================================================== *)

Module Stories.

Import MetaTags.

(** ** The selection of the files (lines 257-294) *)

Definition valid_titles : list str :=
  [ py "A Butterfly Smile";
    py "Hashim Saves the Mangoes";
    py "Let's Play";
    py "Rose and Rocky's War on Insects";
    py "Dum Dum A Dum Biryani";
    py "How Heavy is Air";
    py "Goby's Noisy Best Friend";
    py "Manikantan Has Enough";
    py "Anna's Extraordinary Experiments with Weather";
    py "How Bittu Bottu Got Better" ].

Definition dash : codepoint := 45%N.

(** A character of the class [a-z0-9]. *)
Definition alnum (c : codepoint) : bool :=
  ((97 <=? c) && (c <=? 122) || (48 <=? c) && (c <=? 57))%N.

Definition is_dash (c : codepoint) : bool := (c =? dash)%N.

(** [re.sub(r"[...]+", "-", s)] for the class of the characters [p] holds
    of: every maximal run of them becomes one dash.  [in_run] tells that
    the character before was of the class. *)
Fixpoint sub_runs (p : codepoint -> bool) (in_run : bool) (s : str) : str :=
  match s with
  | [] => []
  | c :: s' =>
      if p c then
        if in_run then sub_runs p true s' else dash :: sub_runs p true s'
      else c :: sub_runs p false s'
  end.

Fixpoint lstrip_dashes (s : str) : str :=
  match s with
  | c :: s' => if is_dash c then lstrip_dashes s' else s
  | [] => []
  end.

(** [s.strip("-")] *)
Definition strip_dashes (s : str) : str :=
  rev (lstrip_dashes (rev (lstrip_dashes s))).

(** Lines 271-275, given [str.lower]. *)
Definition title_to_filename (lower : str -> str) (title : str) : str :=
  let title := lower title in
  let title := sub_runs (fun c => negb (alnum c)) false title in
  let title := strip_dashes (sub_runs is_dash false title) in
  title ++ py ".txt".

(** [s.split("-")] *)
Fixpoint split_dash (s : str) : list str :=
  match s with
  | [] => [[]]
  | c :: s' =>
      if is_dash c then [] :: split_dash s'
      else
        match split_dash s' with
        | h :: t => (c :: h) :: t
        | [] => [[c]]
        end
  end.

(** ["-".join(l)] *)
Fixpoint join_dash (l : list str) : str :=
  match l with
  | [] => []
  | [h] => h
  | h :: t => h ++ dash :: join_dash t
  end.

(** Line 282: ["-".join(x.split('-')[1:])] *)
Definition temp_name (x : str) : str := join_dash (tl (split_dash x)).

(** Lines 278-285: the rows of the table whose name, after its first
    hyphen, is the file name of a valid title.  A row is a file name and a
    file path. *)
Definition selected (lower : str -> str) (filename : str) : bool :=
  existsb (str_eqb (temp_name filename))
    (map (title_to_filename lower) valid_titles).

Definition select (lower : str -> str) (rows : list (str * str))
  : list (str * str) :=
  filter (fun row => selected lower (fst row)) rows.

(** [df.head(n)]: the first [n] rows, all but the last [-n] for [n < 0]. *)
Definition head {A} (n : Z) (rows : list A) : list A :=
  if (0 <=? n)%Z then firstn (Z.to_nat n) rows
  else firstn (length rows - Z.to_nat (- n)) rows.

(** Lines 291-293 and 312: the rows the loop visits. *)
Definition rows_to_process {A} (num_rows : option Z) (rows : list A)
  : list A :=
  let len := Z.of_nat (length rows) in
  let num_rows := match num_rows with
                  | None => Z.min 50 len
                  | Some n => n
                  end in
  let num_rows := Z.min num_rows len in
  head num_rows rows.

(** ** One story (lines 208-248) *)

Definition max_chars : nat := Z.to_nat 10000.

(** Lines 214-217. *)
Definition truncate (story_text : str) : str :=
  if Nat.ltb max_chars (length story_text)
  then firstn max_chars story_text ++ py "..."
  else story_text.

(** Lines 236-248, with [str(e)] the message of the exception. *)
Definition failure_record (e : exn) : dict :=
  [ (PyStr (py "character_primary"), PyStr (py "Error: " ++ exn_msg e));
    (PyStr (py "character_secondary"), PyStr (py "Error"));
    (PyStr (py "setting_primary"), PyStr (py "Error"));
    (PyStr (py "setting_secondary"), PyStr (py "Error"));
    (PyStr (py "theme_primary"), PyStr (py "Error"));
    (PyStr (py "theme_secondary"), PyStr (py "Error"));
    (PyStr (py "events_primary"), PyStr (py "Error"));
    (PyStr (py "events_secondary"), PyStr (py "Error"));
    (PyStr (py "emotions_primary"), PyStr (py "Error"));
    (PyStr (py "emotions_secondary"), PyStr (py "Error"));
    (PyStr (py "keywords"), PyStr (py "Error")) ].

(** ** The columns of the results (lines 297-357) *)

Definition columns : list str := py "filename" :: required_fields.

(** The lists of [results], by column, in the order of the columns. *)
Definition results : Type := list (str * list value).

Definition empty_results : results := map (fun c => (c, [])) columns.

(** One [append] to each list, in the order of the columns. *)
Definition append_entries (r : results) (entries : list value) : results :=
  map (fun '((c, l), x) => (c, l ++ [x])) (combine r entries).

(** Lines 320-331. *)
Definition unread_entries (filename : str) : list value :=
  [ PyStr filename; PyStr (py "Error: Could not read file");
    PyStr (py "Error"); PyStr (py "Error"); PyStr (py "Error");
    PyStr (py "Error"); PyStr (py "Error"); PyStr (py "Error");
    PyStr (py "Error"); PyStr (py "Error"); PyStr (py "Error");
    PyStr (py "Error") ].

(** [v[:50]] *)
Definition slice_50 (v : value) : result value :=
  match v with
  | PyStr s => Ok (PyStr (firstn 50 s))
  | PyList l => Ok (PyList (firstn 50 l))
  | _ => Raise TypeError []
  end.

(** The fields lines 352-357 log. *)
Definition logged_fields : list str :=
  [ py "character_primary"; py "setting_primary"; py "theme_primary";
    py "events_primary"; py "emotions_primary"; py "keywords" ].

Fixpoint map_result {A B} (f : A -> result B) (l : list A) : result (list B) :=
  match l with
  | [] => Ok []
  | a :: l' =>
      (b <- f a ;;
       bs <- map_result f l' ;;
       Ok (b :: bs))%result
  end.

(** ** The cells of the report (lines 363-387) *)

Definition replace_char (a b : codepoint) (s : str) : str :=
  map (fun c => if (c =? a)%N then b else c) s.

(** Line 365, on a cell: [str(v).replace('\n', ' ').replace('\r', ' ')] *)
Definition clean_cell (py_repr : value -> str) (v : value) : str :=
  replace_char 13%N 32%N (replace_char 10%N 32%N (py_str py_repr v)).

Section Pipeline.

Variable json_loads : str -> result value.
Variable literal_eval : str -> result value.
Variable json_dumps : value -> result str.
Variable py_repr : value -> str.

(** [self.predictor(story_text=...)] and the reading of its fields
    [meta_tags_json] and, with [--cot], [analysis], both strings. *)
Variable predictor : str -> result str.

(** [open(filepath, 'r', encoding='utf-8')] and [file.read()] *)
Variable read_text : str -> result str.

(** Lines 134-142. *)
Definition read_story_file (filepath : str) : option str :=
  match read_text filepath with
  | inr content => Some (strip content)
  | inl _ => None
  end.

(** Lines 208-248. *)
Definition generate_meta_tags (story_text : str) : dict :=
  match predictor (truncate story_text) with
  | inr meta_tags_json =>
      parse_meta_tags_json json_loads literal_eval json_dumps py_repr
        meta_tags_json
  | inl e => failure_record e
  end.

(** Lines 313-357: what one turn of the loop appends. *)
Definition story_entries (row : str * str) : result (list value) :=
  let '(filename, filepath) := row in
  match read_story_file filepath with
  | None => Ok (unread_entries filename)
  | Some story_text =>
      let meta_dict := PyDict (generate_meta_tags story_text) in
      (cells <- map_result (item meta_dict) required_fields ;;
       _ <- map_result (fun f => v <- item meta_dict f ;; slice_50 v)
              logged_fields ;;
       Ok (PyStr filename :: cells))%result
  end.

(** Lines 297-357: [results] after the loop over the rows. *)
Fixpoint collect (rows : list (str * str)) (r : results) : result results :=
  match rows with
  | [] => Ok r
  | row :: rows' =>
      (entries <- story_entries row ;;
       collect rows' (append_entries r entries))%result
  end.

Definition collect_results (rows : list (str * str)) : result results :=
  collect rows empty_results.

(** Lines 379-386: a cell of the JSON document. *)
Definition expand_cell (cell : str) : value :=
  if startswith cell (py "[") || startswith cell (py "{") then
    match json_loads cell with
    | inr v => v
    | inl _ => PyStr cell
    end
  else PyStr cell.

End Pipeline.

(** ** Shapes of texts *)

(** No two dashes in a row. *)
Fixpoint no_double_dash (s : str) : bool :=
  match s with
  | c :: (d :: _) as s' => negb (is_dash c && is_dash d) && no_double_dash s'
  | _ => true
  end.

(** The text starts with a dash. *)
Definition dash_first (s : str) : bool :=
  match s with
  | c :: _ => is_dash c
  | [] => false
  end.

(** Lower-case letters, digits and dashes; no dash first, last or after a
    dash. *)
Definition kebab (s : str) : bool :=
  forallb (fun c => alnum c || is_dash c) s
  && no_double_dash s
  && negb (dash_first s)
  && negb (dash_first (rev s)).

(** No dash and no line break in a text. *)
Definition no_dash (s : str) : bool := forallb (fun c => negb (is_dash c)) s.

Definition no_line_break (s : str) : bool :=
  forallb (fun c => negb (c =? 10)%N && negb (c =? 13)%N) s.

(** [str.lower] on a text of ASCII characters. *)
Definition ascii_lower (s : str) : str :=
  map (fun c => if ((65 <=? c) && (c <=? 90))%N then (c + 32)%N else c) s.

End Stories.

(* ================================================================== *)
(** * An executable reference for the library calls of the parser *)
(* ================================================================== *)

(** [json.loads], [ast.literal_eval], [json.dumps] and [str] are parameters
    of the parser.  To run it on concrete texts, this module gives them on a
    fragment: JSON without floats and without [\u] escapes, and Python
    literals built from printable ASCII with brackets, plain quoted strings,
    decimal integers and [True], [False], [None].  Outside the fragment the
    answer is [Unmodelled], never a guess. *)
Module Reference.

Inductive outcome (A : Type) :=
| Done (a : A)
| Fails (e : exn)
| Unmodelled.
Arguments Done {A} a.
Arguments Fails {A} e.
Arguments Unmodelled {A}.

Definition obind {A B} (o : outcome A) (k : A -> outcome B) : outcome B :=
  match o with
  | Done a => k a
  | Fails e => Fails e
  | Unmodelled => Unmodelled
  end.

Definition ch (a : ascii) : codepoint := N_of_ascii a.

Definition dquote : codepoint := 34%N.

Definition is_digit (c : codepoint) : bool := ((48 <=? c) && (c <=? 57))%N.

Fixpoint span_digits (s : str) : str * str :=
  match s with
  | c :: s' =>
      if is_digit c then let '(d, r) := span_digits s' in (c :: d, r)
      else ([], s)
  | [] => ([], [])
  end.

Definition int_of_digits (d : str) : Z :=
  fold_left (fun acc c => (10 * acc + Z.of_N (c - 48))%Z) d 0%Z.

(** The bracket nesting and the number of digits up to which the answers
    below are those of CPython with its default limits. *)
Definition max_depth : nat := 64.
Definition max_digits : nat := 4300.

(** [d[k] = v] on a dictionary with string keys. *)
Fixpoint dict_set (d : dict) (k : str) (v : value) : dict :=
  match d with
  | [] => [(PyStr k, v)]
  | (k', v') :: d' =>
      if key_is k k' then (k', v) :: d' else (k', v') :: dict_set d' k v
  end.

(** ** json.loads *)

Definition json_error {A} (msg : string) : outcome A :=
  Fails (mk_exn JSONDecodeError (py msg)).

Definition json_ws (c : codepoint) : bool :=
  ((c =? 32) || (c =? 9) || (c =? 10) || (c =? 13))%N.

Fixpoint skip_ws (s : str) : str :=
  match s with
  | c :: s' => if json_ws c then skip_ws s' else s
  | [] => []
  end.

Definition unescape (c : codepoint) : option codepoint :=
  if (c =? dquote)%N then Some (dquote)
  else if (c =? ch "\")%N then Some (ch "\")
  else if (c =? ch "/")%N then Some (ch "/")
  else if (c =? ch "b")%N then Some 8%N
  else if (c =? ch "f")%N then Some 12%N
  else if (c =? ch "n")%N then Some 10%N
  else if (c =? ch "r")%N then Some 13%N
  else if (c =? ch "t")%N then Some 9%N
  else None.

(** The characters of a string after its opening quote. *)
Fixpoint scan_string (s acc : str) : outcome (str * str) :=
  match s with
  | [] => json_error "Unterminated string starting at"
  | c :: s' =>
      if (c =? dquote)%N then Done (rev acc, s')
      else if (c =? ch "\")%N then
        match s' with
        | [] => json_error "Unterminated string starting at"
        | e :: s'' =>
            if (e =? ch "u")%N then Unmodelled
            else match unescape e with
                 | Some x => scan_string s'' (x :: acc)
                 | None => json_error "Invalid \escape"
                 end
        end
      else if (c <? 32)%N then json_error "Invalid control character at"
      else scan_string s' (c :: acc)
  end.

(** What follows the integer part makes the number a float. *)
Definition float_tail (r : str) : bool :=
  match r with
  | c :: d :: r' =>
      if (c =? ch ".")%N then is_digit d
      else if ((c =? ch "e") || (c =? ch "E"))%N then
        is_digit d
        || (((d =? ch "+") || (d =? ch "-"))%N
            && match r' with x :: _ => is_digit x | [] => false end)
      else false
  | _ => false
  end.

(** An optional minus sign, then [0] or a digit string that does not start
    with [0], at the head of [s]. *)
Definition scan_int (s : str) : option (outcome (value * str)) :=
  let '(neg, s1) :=
    match s with
    | c :: s' => if (c =? ch "-")%N then (true, s') else (false, s)
    | [] => (false, s)
    end in
  match s1 with
  | c :: s2 =>
      if is_digit c then
        let '(d, r) :=
          if (c =? ch "0")%N then ([c], s2) else span_digits s1 in
        if float_tail r then Some Unmodelled
        else if Nat.ltb max_digits (length d) then Some Unmodelled
        else
          let z := int_of_digits d in
          Some (Done (PyInt (if neg then - z else z)%Z, r))
      else None
  | [] => None
  end.

Definition scan_constant (s : str) : outcome (value * str) :=
  if startswith s (py "null") then Done (PyNone, skipn 4 s)
  else if startswith s (py "true") then Done (PyBool true, skipn 4 s)
  else if startswith s (py "false") then Done (PyBool false, skipn 5 s)
  else if startswith s (py "NaN") then Unmodelled
  else if startswith s (py "Infinity") then Unmodelled
  else if startswith s (py "-Infinity") then Unmodelled
  else json_error "Expecting value".

Fixpoint scan_value (depth fuel : nat) (s : str) {struct fuel}
  : outcome (value * str) :=
  match fuel with
  | O => Unmodelled
  | S fuel' =>
      match s with
      | [] => json_error "Expecting value"
      | c :: s' =>
          if (c =? dquote)%N then
            obind (scan_string s' []) (fun '(t, r) => Done (PyStr t, r))
          else if (c =? ch "{")%N then
            match depth with
            | O => Unmodelled
            | S depth' =>
                match skip_ws s' with
                | x :: r =>
                    if (x =? ch "}")%N then Done (PyDict [], r)
                    else scan_members depth' fuel' (x :: r) []
                | [] =>
                    json_error
                      "Expecting property name enclosed in double quotes"
                end
            end
          else if (c =? ch "[")%N then
            match depth with
            | O => Unmodelled
            | S depth' =>
                match skip_ws s' with
                | x :: r =>
                    if (x =? ch "]")%N then Done (PyList [], r)
                    else scan_elements depth' fuel' (x :: r) []
                | [] => json_error "Expecting value"
                end
            end
          else
            match scan_int s with
            | Some o => o
            | None => scan_constant s
            end
      end
  end

with scan_members (depth fuel : nat) (s : str) (acc : dict) {struct fuel}
  : outcome (value * str) :=
  match fuel with
  | O => Unmodelled
  | S fuel' =>
      match s with
      | c :: s1 =>
          if (c =? dquote)%N then
            obind (scan_string s1 []) (fun '(k, r1) =>
            match skip_ws r1 with
            | x :: r2 =>
                if (x =? ch ":")%N then
                  obind (scan_value depth fuel' (skip_ws r2)) (fun '(v, r3) =>
                  let acc' := dict_set acc k v in
                  match skip_ws r3 with
                  | y :: r4 =>
                      if (y =? ch "}")%N then Done (PyDict acc', r4)
                      else if (y =? ch ",")%N then
                        scan_members depth fuel' (skip_ws r4) acc'
                      else json_error "Expecting ',' delimiter"
                  | [] => json_error "Expecting ',' delimiter"
                  end)
                else json_error "Expecting ':' delimiter"
            | [] => json_error "Expecting ':' delimiter"
            end)
          else
            json_error "Expecting property name enclosed in double quotes"
      | [] => json_error "Expecting property name enclosed in double quotes"
      end
  end

with scan_elements (depth fuel : nat) (s : str) (acc : list value)
  {struct fuel} : outcome (value * str) :=
  match fuel with
  | O => Unmodelled
  | S fuel' =>
      obind (scan_value depth fuel' s) (fun '(v, r) =>
      match skip_ws r with
      | y :: r' =>
          if (y =? ch "]")%N then Done (PyList (rev (v :: acc)), r')
          else if (y =? ch ",")%N then
            scan_elements depth fuel' (skip_ws r') (v :: acc)
          else json_error "Expecting ',' delimiter"
      | [] => json_error "Expecting ',' delimiter"
      end)
  end.

(** [json.loads(s)]: one value between optional white space. *)
Definition json_loads (s : str) : outcome value :=
  obind (scan_value max_depth (S (S (length s))) (skip_ws s)) (fun '(v, r) =>
  match skip_ws r with
  | [] => Done v
  | _ :: _ => json_error "Extra data"
  end).

(** ** ast.literal_eval *)

Definition syntax_error {A} : outcome A :=
  Fails (mk_exn SyntaxError (py "invalid syntax")).

Definition printable (c : codepoint) : bool := ((32 <=? c) && (c <=? 126))%N.

Definition ident_start (c : codepoint) : bool :=
  ((65 <=? c) && (c <=? 90) || (97 <=? c) && (c <=? 122) || (c =? 95))%N.

Definition ident_char (c : codepoint) : bool := ident_start c || is_digit c.

Fixpoint span_ident (s : str) : str * str :=
  match s with
  | c :: s' =>
      if ident_char c then let '(d, r) := span_ident s' in (c :: d, r)
      else ([], s)
  | [] => ([], [])
  end.

Fixpoint skip_spaces (s : str) : str :=
  match s with
  | c :: s' => if (c =? 32)%N then skip_spaces s' else s
  | [] => []
  end.

Definition keywords : list str :=
  map py
    [ "False"; "None"; "True"; "and"; "as"; "assert"; "async"; "await";
      "break"; "class"; "continue"; "def"; "del"; "elif"; "else"; "except";
      "finally"; "for"; "from"; "global"; "if"; "import"; "in"; "is";
      "lambda"; "nonlocal"; "not"; "or"; "pass"; "raise"; "return"; "try";
      "while"; "with"; "yield"; "match"; "case"; "type"; "_" ]%string.

Definition is_keyword (w : str) : bool := existsb (str_eqb w) keywords.

(** Two names in a row, neither of them a keyword: no expression starts so. *)
Definition two_names (s : str) : bool :=
  match s with
  | c :: _ =>
      if ident_start c then
        let '(a, r) := span_ident s in
        match r with
        | x :: r' =>
            if (x =? 32)%N then
              match skip_spaces r' with
              | y :: _ =>
                  ident_start y
                  && negb (is_keyword a)
                  && negb (is_keyword (fst (span_ident (skip_spaces r'))))
              | [] => false
              end
            else false
        | [] => false
        end
      else false
  | [] => false
  end.

(** A quoted string without backslash, after its opening quote [q]. *)
Fixpoint lit_string (q : codepoint) (s acc : str) : outcome (str * str) :=
  match s with
  | [] => Unmodelled
  | c :: s' =>
      if (c =? q)%N then
        match acc, s' with
        | [], x :: _ => if (x =? q)%N then Unmodelled else Done ([], s')
        | _, _ => Done (rev acc, s')
        end
      else if (c =? ch "\")%N then Unmodelled
      else lit_string q s' (c :: acc)
  end.

Definition lit_int (s : str) : outcome (value * str) :=
  let '(d, r) := span_digits s in
  let glued := match r with
               | x :: _ => ident_char x || (x =? ch ".")%N
               | [] => false
               end in
  let zero_led := match d with
                  | x :: _ :: _ => (x =? ch "0")%N
                  | _ => false
                  end in
  if glued || zero_led || Nat.ltb max_digits (length d) then Unmodelled
  else Done (PyInt (int_of_digits d), r).

Definition lit_constant (s : str) : outcome (value * str) :=
  let '(w, r) := span_ident s in
  if str_eqb w (py "None") then Done (PyNone, r)
  else if str_eqb w (py "True") then Done (PyBool true, r)
  else if str_eqb w (py "False") then Done (PyBool false, r)
  else Unmodelled.

(** The keys the fragment accepts, and their equality ([1 == True]). *)
Definition lit_key_num (k : value) : option Z :=
  match k with
  | PyInt z => Some z
  | PyBool b => Some (if b then 1 else 0)%Z
  | _ => None
  end.

Definition lit_key_ok (k : value) : bool :=
  match k with
  | PyStr _ | PyInt _ | PyBool _ | PyNone => true
  | _ => false
  end.

Definition lit_key_eqb (a b : value) : bool :=
  match a, b with
  | PyStr x, PyStr y => str_eqb x y
  | PyNone, PyNone => true
  | _, _ =>
      match lit_key_num a, lit_key_num b with
      | Some x, Some y => Z.eqb x y
      | _, _ => false
      end
  end.

Fixpoint lit_value (depth fuel : nat) (s : str) {struct fuel}
  : outcome (value * str) :=
  match fuel with
  | O => Unmodelled
  | S fuel' =>
      match s with
      | [] => Unmodelled
      | c :: s' =>
          if ((c =? dquote) || (c =? ch "'"))%N then
            obind (lit_string c s' []) (fun '(t, r) => Done (PyStr t, r))
          else if (c =? ch "`")%N then syntax_error
          else if (c =? ch "{")%N then
            match depth with
            | O => Unmodelled
            | S depth' =>
                match skip_spaces s' with
                | x :: r =>
                    if (x =? ch "}")%N then Done (PyDict [], r)
                    else lit_items depth' fuel' (x :: r) []
                | [] => Unmodelled
                end
            end
          else if (c =? ch "[")%N then
            match depth with
            | O => Unmodelled
            | S depth' => lit_elements depth' fuel' (skip_spaces s') []
            end
          else if is_digit c then lit_int s
          else lit_constant s
      end
  end

with lit_items (depth fuel : nat) (s : str) (acc : dict) {struct fuel}
  : outcome (value * str) :=
  match fuel with
  | O => Unmodelled
  | S fuel' =>
      obind (lit_value depth fuel' s) (fun '(k, r1) =>
      if negb (lit_key_ok k) || existsb (fun kv => lit_key_eqb k (fst kv)) acc
      then Unmodelled
      else
        match skip_spaces r1 with
        | x :: r2 =>
            if (x =? ch ":")%N then
              obind (lit_value depth fuel' (skip_spaces r2)) (fun '(v, r3) =>
              let acc' := acc ++ [(k, v)] in
              match skip_spaces r3 with
              | y :: r4 =>
                  if (y =? ch "}")%N then Done (PyDict acc', r4)
                  else if (y =? ch ",")%N then
                    match skip_spaces r4 with
                    | z :: r5 =>
                        if (z =? ch "}")%N then Done (PyDict acc', r5)
                        else lit_items depth fuel' (z :: r5) acc'
                    | [] => Unmodelled
                    end
                  else Unmodelled
              | [] => Unmodelled
              end)
            else Unmodelled
        | [] => Unmodelled
        end)
  end

with lit_elements (depth fuel : nat) (s : str) (acc : list value)
  {struct fuel} : outcome (value * str) :=
  match fuel with
  | O => Unmodelled
  | S fuel' =>
      match s with
      | [] => Unmodelled
      | c :: s' =>
          if (c =? ch "]")%N then Done (PyList (rev acc), s')
          else
            obind (lit_value depth fuel' s) (fun '(v, r) =>
            match skip_spaces r with
            | y :: r' =>
                if (y =? ch "]")%N then Done (PyList (rev (v :: acc)), r')
                else if (y =? ch ",")%N then
                  lit_elements depth fuel' (skip_spaces r') (v :: acc)
                else Unmodelled
            | [] => Unmodelled
            end)
      end
  end.

(** [ast.literal_eval(s)] on a text of printable ASCII without outer
    spaces. *)
Definition literal_eval (s : str) : outcome value :=
  if negb (forallb printable s) then Unmodelled
  else if negb (str_eqb (skip_spaces s) s) then Unmodelled
  else if negb (str_eqb (rev (skip_spaces (rev s))) s) then Unmodelled
  else if two_names s then syntax_error
  else
    obind (lit_value max_depth (S (S (length s))) s) (fun '(v, r) =>
    match r with
    | [] => Done v
    | _ :: _ => Unmodelled
    end).

(** ** json.dumps(_, ensure_ascii=False) *)

Definition hex_digit (n : N) : codepoint :=
  (if n <? 10 then 48 + n else 87 + n)%N.

Definition escape_char (c : codepoint) : str :=
  if (c =? dquote)%N then [ch "\"; dquote]
  else if (c =? ch "\")%N then [ch "\"; ch "\"]
  else if (c =? 10)%N then py "\n"
  else if (c =? 13)%N then py "\r"
  else if (c =? 9)%N then py "\t"
  else if (c =? 8)%N then py "\b"
  else if (c =? 12)%N then py "\f"
  else if (c <? 32)%N then
    py "\u00" ++ [hex_digit (c / 16); hex_digit (c mod 16)]
  else [c].

Definition encode_string (s : str) : str :=
  dquote :: flat_map escape_char s ++ [dquote].

(** The text of a dictionary key. *)
Definition dumps_key (k : value) : outcome str :=
  match k with
  | PyStr s => Done (encode_string s)
  | PyInt z => Done (encode_string (str_of_int z))
  | PyBool true => Done (encode_string (py "true"))
  | PyBool false => Done (encode_string (py "false"))
  | PyNone => Done (encode_string (py "null"))
  | _ => Unmodelled
  end.

Fixpoint json_dumps (v : value) : outcome str :=
  match v with
  | PyNone => Done (py "null")
  | PyBool true => Done (py "true")
  | PyBool false => Done (py "false")
  | PyInt z => Done (str_of_int z)
  | PyStr s => Done (encode_string s)
  | PyList l =>
      obind
        ((fix elements (l : list value) : outcome str :=
            match l with
            | [] => Done []
            | [x] => json_dumps x
            | x :: l' =>
                obind (json_dumps x) (fun a =>
                obind (elements l') (fun b => Done (a ++ py ", " ++ b)))
            end) l)
        (fun body => Done (py "[" ++ body ++ py "]"))
  | PyDict d =>
      obind
        ((fix items (d : list (value * value)) : outcome str :=
            match d with
            | [] => Done []
            | (k, x) :: d' =>
                obind (dumps_key k) (fun a =>
                obind (json_dumps x) (fun b =>
                match d' with
                | [] => Done (a ++ py ": " ++ b)
                | _ :: _ =>
                    obind (items d') (fun c =>
                    Done (a ++ py ": " ++ b ++ py ", " ++ c))
                end))
            end) d)
        (fun body => Done (py "{" ++ body ++ py "}"))
  | PyFloat _ | PyObj _ => Unmodelled
  end.

(** ** str *)

(** [str(v)] for an object that is not a string. *)
Definition py_repr (v : value) : option str :=
  match v with
  | PyNone => Some (py "None")
  | PyBool true => Some (py "True")
  | PyBool false => Some (py "False")
  | PyInt z => Some (str_of_int z)
  | PyObj r => Some r
  | _ => None
  end.

(** ** The parser on the reference library *)

(** An answer of the reference as the outcome of the call.  The examples
    below are on texts for which no call is [Unmodelled]. *)
Definition run {A} (o : outcome A) : result A :=
  match o with
  | Done a => Ok a
  | Fails e => inl e
  | Unmodelled => Raise OtherError (py "outside the reference fragment")
  end.

Definition modelled {A} (o : outcome A) : bool :=
  match o with
  | Unmodelled => false
  | _ => true
  end.

Definition loads (s : str) : result value := run (json_loads s).
Definition leval (s : str) : result value := run (literal_eval s).
Definition dumps (v : value) : result str := run (json_dumps v).
Definition repr (v : value) : str :=
  match py_repr v with
  | Some s => s
  | None => []
  end.

Definition parse_meta_tags_json : str -> dict :=
  MetaTags.parse_meta_tags_json loads leval dumps repr.

(** A text written with ['] where it has the double quote. *)
Definition dq (s : string) : str :=
  map (fun c => if (c =? ch "'")%N then dquote else c) (py s).

(** ** Sample texts *)

(** An object with 8 of the 11 required keys. *)
Definition tags_missing_three : str :=
  dq "{'character_primary': 'Meera', 'character_secondary': 'her brother', 'setting_primary': 'a village', 'setting_secondary': 'the school', 'theme_primary': 'wind', 'theme_secondary': 'sharing', 'events_primary': 'a kite is lost', 'events_secondary': 'rain'}".


(** An object with a list as a value. *)
Definition tags_with_list : str :=
  dq "{'keywords': ['kite', 'wind'], 'theme_primary': 'flight'}".

(** Prose. *)
Definition prose : str := py "Once upon a time there was a kite.".

(** A Python literal with an integer key. *)
Definition literal_with_int_key : str := py "{1: 'a'}".

(** The empty object in a fence. *)
Definition fenced_empty_object : str := py "```json{}```".

End Reference.

(* ================================================================== *)
(** * Sample runs of the audio pipeline *)
(* ================================================================== *)

Module Scenarios.

Import AudioEval.
Local Open Scope float_scope.

Definition clips : path := py "clips".
Definition story : path := py "clips/story.wav".

Definition entry (k : string) (v : value) : value * value := (PyStr (py k), v).

(** A Sarvam answer in Hindi. *)
Definition sarvam_reply : response :=
  mk_response 200 []
    (Ok (PyDict [ entry "transcript" (PyStr (py "namaste"));
                  entry "language_code" (PyStr (py "hi-IN")) ])).

(** A Gemini answer with one candidate of one part. *)
Definition gemini_reply (text : str) : response :=
  mk_response 200 []
    (Ok (PyDict
           [ entry "candidates"
               (PyList
                  [ PyDict
                      [ entry "content"
                          (PyDict
                             [ entry "parts"
                                 (PyList [ PyDict [ entry "text" (PyStr text) ] ])
                             ]) ] ]) ])).

(** An OK answer without candidates, and an answer that is not OK. *)
Definition no_candidates : response :=
  mk_response 200 [] (Ok (PyDict [ entry "candidates" (PyList []) ])).
Definition unavailable : response :=
  mk_response 503 (py "Service Unavailable")
    (Raise JSONDecodeError (py "Expecting value")).

(** One file of 3 MiB that pydub cannot decode, with the given answers to
    the translation request and to the second transcription request. *)
Definition run_with (translation transcription : result (response * float))
  : world :=
  mk_world true
    (fun _ => Raise Exception (py "Decoding failed"))
    (fun _ => Ok 3145728%Z)
    (fun _ => Ok tt)
    (fun _ => Ok (sarvam_reply, 0.75))
    (fun _ => translation)
    (fun _ _ => transcription)
    (fun _ => [story])
    (fun _ => py ".wav")
    (fun _ _ => py "story.wav").

Definition translated : world :=
  run_with (Ok (gemini_reply (py "hello"), 1.5))
    (Ok (gemini_reply (py "hello there"), 2)).

Definition translation_unavailable : world :=
  run_with (Ok (unavailable, 1.5)) (Ok (gemini_reply (py "hello there"), 2)).

Definition translation_without_candidates : world :=
  run_with (Ok (no_candidates, 1.5)) (Ok (gemini_reply (py "hello there"), 2)).

Definition transcription_unavailable : world :=
  run_with (Ok (gemini_reply (py "hello"), 1.5)) (Ok (unavailable, 2)).

(** A text and a language that give a prompt of 400 characters, and an
    answer of 80 characters. *)
Definition long_text : value := PyStr (repeat 120%N 283).
Definition hindi : value := PyStr (py "hi-IN").
Definition answer_80 : str := repeat 121%N 80.

Definition long_translation : world :=
  run_with (Ok (gemini_reply answer_80, 1.5))
    (Ok (gemini_reply (py "hello there"), 2)).

End Scenarios.

(* ================================================================== *)
(** * More sample runs of the audio pipeline *)
(* ================================================================== *)

Module Retries.

Import AudioEval Scenarios.
Local Open Scope float_scope.

(** The world [w] with other answers to the translation requests. *)
Definition with_post_translate (w : world)
  (answers : str -> result (response * float)) : world :=
  mk_world (PYDUB_AVAILABLE w) (decode_length w) (getsize w) (open_rb w)
    (post_sarvam w) answers (post_gemini w) (rglob w) (suffix_lower w)
    (relpath w).

(** The first [k] requests of the second transcription of a file are
    answered 429. *)
Definition busy_before (w : world) (file_path : path) (k : nat) : Prop :=
  forall i, i < k ->
    exists r t, post_gemini w file_path i = inr (r, t)
                /\ status_code r = 429%Z.

Definition too_many_requests : response :=
  mk_response 429 (py "Too Many Requests")
    (Raise JSONDecodeError (py "Expecting value")).

Definition not_found : response :=
  mk_response 404 (py "Not Found")
    (Raise JSONDecodeError (py "Expecting value")).

(** An OK answer that is an object without candidates. *)
Definition blocked : response :=
  mk_response 200 []
    (Ok (PyDict [ entry "promptFeedback"
                    (PyDict [ entry "blockReason" (PyStr (py "SAFETY")) ]) ])).

(** A Sarvam answer in English, and one without the language. *)
Definition english_reply : response :=
  mk_response 200 []
    (Ok (PyDict [ entry "transcript" (PyStr (py "good morning"));
                  entry "language_code" (PyStr (py "en-IN")) ])).
Definition reply_without_language : response :=
  mk_response 200 [] (Ok (PyDict [ entry "request_id" (PyStr (py "42")) ])).

(** One decodable clip of 2.5 seconds, with the given answers of Sarvam, of
    the translation request and, by attempt, of the second transcription. *)
Definition run (sarvam translation : result (response * float))
  (transcription : nat -> result (response * float)) : world :=
  mk_world true
    (fun _ => Ok 2500%Z)
    (fun _ => Ok 40000%Z)
    (fun _ => Ok tt)
    (fun _ => sarvam)
    (fun _ => translation)
    (fun _ => transcription)
    (fun _ => [story])
    (fun _ => py ".wav")
    (fun _ _ => py "story.wav").

Definition answered (text : str) (elapsed : float)
  : result (response * float) :=
  Ok (gemini_reply text, elapsed).

(** The second transcription is answered 429 twice, then OK. *)
Definition busy_twice : world :=
  run (Ok (sarvam_reply, 0.75)) (answered (py "hello") 1.5)
    (fun attempt =>
       if Nat.ltb attempt 2 then Ok (too_many_requests, 0.5)
       else answered (py "hello there") 2).

(** It is answered 429 every time. *)
Definition always_busy : world :=
  run (Ok (sarvam_reply, 0.75)) (answered (py "hello") 1.5)
    (fun _ => Ok (too_many_requests, 0.5)).

(** It is answered 429 once, then 404. *)
Definition busy_then_missing : world :=
  run (Ok (sarvam_reply, 0.75)) (answered (py "hello") 1.5)
    (fun attempt =>
       if Nat.ltb attempt 1 then Ok (too_many_requests, 0.5)
       else Ok (not_found, 0.25)).

(** It is answered OK without candidates. *)
Definition transcription_blocked : world :=
  run (Ok (sarvam_reply, 0.75)) (answered (py "hello") 1.5)
    (fun _ => Ok (blocked, 2)).

(** Sarvam answers 500. *)
Definition sarvam_down : world :=
  run (Ok (mk_response 500 (py "Internal Server Error")
             (Raise JSONDecodeError (py "Expecting value")), 0.25))
    (answered (py "hello") 1.5) (fun _ => answered (py "hello there") 2).

(** Sarvam answers in English; the translation service is down. *)
Definition english_clip : world :=
  run (Ok (english_reply, 0.75)) (Raise OSError (py "Connection refused"))
    (fun _ => answered (py "good morning") 2).

(** Sarvam answers without transcript and language. *)
Definition language_missing : world :=
  run (Ok (reply_without_language, 0.75)) (answered (py "hello") 1.5)
    (fun _ => answered (py "hello there") 2).

(** The translation request is answered OK without candidates. *)
Definition translation_blocked : world :=
  run (Ok (sarvam_reply, 0.75)) (Ok (blocked, 1.5))
    (fun _ => answered (py "hello there") 2).

(** A folder without audio files. *)
Definition no_clips : world :=
  mk_world true (fun _ => Ok 2500%Z) (fun _ => Ok 40000%Z) (fun _ => Ok tt)
    (fun _ => Ok (sarvam_reply, 0.75)) (fun _ => answered (py "hello") 1.5)
    (fun _ _ => answered (py "hello there") 2)
    (fun _ => [py "clips/notes.txt"])
    (fun _ => py ".txt")
    (fun _ _ => py "notes.txt").

End Retries.

(* ================================================================== *)
(** * Sample answers of the libraries, of the predictor and of the files *)
(* ================================================================== *)

Module Samples.

(** A Python literal with a set in a list.  It is no JSON text;
    [ast.literal_eval] returns its value, and [json.dumps] raises
    [TypeError] on the list, which holds a set. *)
Definition set_in_a_list : str :=
  py "{'keywords': [{1, 2}], 'theme_primary': 'flight'}".

Definition set_in_a_list_value : dict :=
  [ (PyStr (py "keywords"), PyList [PyObj (py "{1, 2}")]);
    (PyStr (py "theme_primary"), PyStr (py "flight")) ].

Definition leval (s : str) : result value :=
  if str_eqb s set_in_a_list then Ok (PyDict set_in_a_list_value)
  else Reference.leval s.

Definition dumps (v : value) : result str :=
  match v with
  | PyList [PyObj _] =>
      Raise TypeError (py "Object of type set is not JSON serializable")
  | _ => Reference.dumps v
  end.

(** One story file that can be read; any other path cannot. *)
Definition story_path : str := py "STEM-text-files/12-let-s-play.txt".

Definition read_text (filepath : str) : result str :=
  if str_eqb filepath story_path then Ok (py "  Let us play.  ")
  else Raise OSError (py "[Errno 2] No such file or directory").

(** A predictor that answers with an object, and one that raises. *)
Definition predictor (story_text : str) : result str :=
  Ok (Reference.dq "{'keywords': ['kite', 'wind']}").

Definition failing_predictor (story_text : str) : result str :=
  Raise Exception (py "quota exceeded").

(** An object with 8 of the 11 required keys; one of its values is a
    list and one a number. *)
Definition tags_with_values : str :=
  Reference.dq "{'character_primary': ['Meera', 'Arun'], 'character_secondary': 'her brother', 'setting_primary': 'a village', 'setting_secondary': 'the school', 'theme_primary': 'wind', 'theme_secondary': 'sharing', 'events_primary': 'a kite is lost', 'events_secondary': 2}".




(** Two stories of 10001 characters that differ in the last one. *)
Definition long_story : str := repeat 97%N (Z.to_nat 10001).

Definition other_long_story : str := repeat 97%N (Z.to_nat 10000) ++ py "b".

End Samples.

(* ================================================================== *)
(** * Facts about strings *)
(* ================================================================== *)

Section StringFacts.

Lemma str_eqb_refl (a : str) : str_eqb a a = true.
Proof.
  induction a as [|x a IH]; simpl; [reflexivity|].
  now rewrite N.eqb_refl.
Qed.

Lemma str_eqb_eq (a b : str) : str_eqb a b = true -> a = b.
Proof.
  revert b; induction a as [|x a IH]; intros [|y b]; simpl; try easy.
  intros H; apply andb_prop in H as [Hx Hab].
  apply N.eqb_eq in Hx; subst; f_equal; auto.
Qed.

Lemma lstrip_length (s : str) : length (lstrip s) <= length s.
Proof.
  induction s as [|c s IH]; simpl; [lia|].
  destruct (isspace c); simpl; lia.
Qed.

Lemma lstrip_idem (s : str) : lstrip (lstrip s) = lstrip s.
Proof.
  induction s as [|c s IH]; simpl; [reflexivity|].
  destruct (isspace c) eqn:E; [assumption|].
  simpl; now rewrite E.
Qed.

Lemma lstrip_spaces (pre s : str) :
  forallb isspace pre = true -> lstrip (pre ++ s) = lstrip s.
Proof.
  induction pre as [|c pre IH]; simpl; [reflexivity|].
  intros H; apply andb_prop in H as [Hc Hpre].
  rewrite Hc; auto.
Qed.

Lemma lstrip_all_space (s : str) : forallb isspace s = true -> lstrip s = [].
Proof.
  intros H. rewrite <- (app_nil_r s). now rewrite lstrip_spaces.
Qed.

Lemma lstrip_app (s t : str) :
  lstrip (s ++ t) = if forallb isspace s then lstrip t else lstrip s ++ t.
Proof.
  induction s as [|c s IH]; simpl; [reflexivity|].
  destruct (isspace c); simpl; [assumption|reflexivity].
Qed.

Lemma lstrip_head (c : codepoint) (t : str) :
  isspace c = false -> lstrip (c :: t) = c :: t.
Proof. intros H; simpl; now rewrite H. Qed.

Lemma lstrip_fixed_head (c : codepoint) (t : str) :
  lstrip (c :: t) = c :: t -> isspace c = false.
Proof.
  simpl. destruct (isspace c); [|reflexivity].
  intros H. pose proof (lstrip_length t) as L.
  rewrite H in L; simpl in L; lia.
Qed.

(** Trailing characters that are not white space stay. *)
Lemma rstrip_last (s : str) (c : codepoint) :
  isspace c = false -> rstrip (s ++ [c]) = s ++ [c].
Proof.
  intros H. unfold rstrip. rewrite rev_app_distr; simpl.
  rewrite H; simpl. now rewrite rev_involutive.
Qed.

Lemma forallb_rev' {A} (f : A -> bool) (l : list A) :
  forallb f (rev l) = forallb f l.
Proof.
  induction l as [|x l IH]; simpl; [reflexivity|].
  rewrite forallb_app, IH; simpl.
  now rewrite andb_true_r, andb_comm.
Qed.

Lemma rstrip_spaces (s post : str) :
  forallb isspace post = true -> rstrip (s ++ post) = rstrip s.
Proof.
  intros H. unfold rstrip. rewrite rev_app_distr.
  rewrite lstrip_spaces; [reflexivity|].
  now rewrite forallb_rev'.
Qed.

Lemma rstrip_idem (s : str) : rstrip (rstrip s) = rstrip s.
Proof.
  unfold rstrip. now rewrite rev_involutive, lstrip_idem.
Qed.

Lemma rstrip_head (c : codepoint) (t : str) :
  isspace c = false -> exists y, rstrip (c :: t) = c :: y.
Proof.
  intros H. unfold rstrip; simpl. rewrite lstrip_app.
  destruct (forallb isspace (rev t)).
  - exists []. simpl. now rewrite H.
  - exists (rev (lstrip (rev t))). now rewrite rev_app_distr.
Qed.

Lemma lstrip_rstrip (t : str) : lstrip t = t -> lstrip (rstrip t) = rstrip t.
Proof.
  destruct t as [|c t]; [reflexivity|].
  intros H; apply lstrip_fixed_head in H.
  destruct (rstrip_head c t H) as [y ->].
  now apply lstrip_head.
Qed.

Lemma strip_idem (s : str) : strip (strip s) = strip s.
Proof.
  unfold strip.
  rewrite (lstrip_rstrip (lstrip s)) by apply lstrip_idem.
  apply rstrip_idem.
Qed.

Lemma strip_pad (pre s post : str) :
  forallb isspace pre = true -> forallb isspace post = true ->
  strip (pre ++ s ++ post) = strip s.
Proof.
  intros Hpre Hpost. unfold strip.
  rewrite lstrip_spaces by assumption.
  rewrite lstrip_app.
  destruct (forallb isspace s) eqn:E.
  - now rewrite (lstrip_all_space post), (lstrip_all_space s).
  - now apply rstrip_spaces.
Qed.

(** A text between two characters that are not white space is trimmed. *)
Lemma strip_delimited (a b : codepoint) (body : str) :
  isspace a = false -> isspace b = false ->
  strip (a :: body ++ [b]) = a :: body ++ [b].
Proof.
  intros Ha Hb. unfold strip. rewrite (lstrip_head a _ Ha).
  change (a :: body ++ [b]) with ((a :: body) ++ [b]).
  now apply rstrip_last.
Qed.

Lemma endswith_app (s p : str) : endswith (s ++ p) p = true.
Proof.
  unfold endswith. rewrite rev_app_distr.
  induction (rev p) as [|x r IH]; simpl; [reflexivity|].
  now rewrite N.eqb_refl.
Qed.

Lemma slice_drop_last_app (s p : str) :
  slice_drop_last (length p) (s ++ p) = s.
Proof.
  unfold slice_drop_last. rewrite length_app.
  replace (length s + length p - length p) with (length s + 0) by lia.
  rewrite firstn_app_2. simpl. apply app_nil_r.
Qed.

End StringFacts.

(* ================================================================== *)
(** * Facts about dictionaries *)
(* ================================================================== *)

Section DictFacts.

Lemma has_key_lookup (d : dict) (f : str) :
  has_key d f = true -> exists v, lookup d f = Some v.
Proof.
  induction d as [|[k v] d IH]; simpl; [discriminate|].
  destruct (key_is f k); simpl; eauto.
Qed.

Lemma lookup_has_key (d : dict) (f : str) (v : value) :
  lookup d f = Some v -> has_key d f = true.
Proof.
  induction d as [|[k w] d IH]; simpl; [discriminate|].
  destruct (key_is f k); simpl; auto.
Qed.

Lemma lookup_In (d : dict) (f : str) (v : value) :
  lookup d f = Some v -> exists k, In (k, v) d.
Proof.
  induction d as [|[k w] d IH]; simpl; [discriminate|].
  destruct (key_is f k).
  - intros [= ->]; eauto.
  - intros H; destruct (IH H) as [k' Hk]; eauto.
Qed.

Lemma str_valued_In (d : dict) (k v : value) :
  str_valued d = true -> In (k, v) d -> exists t, v = PyStr t.
Proof.
  unfold str_valued; rewrite forallb_forall.
  intros H Hin. specialize (H _ Hin); simpl in H.
  destruct v; try discriminate; eauto.
Qed.

Lemma lookup_app_old (d e : dict) (f : str) (v : value) :
  lookup d f = Some v -> lookup (d ++ e) f = Some v.
Proof.
  induction d as [|[k w] d IH]; simpl; [discriminate|].
  destruct (key_is f k); auto.
Qed.

Lemma lookup_app_new (d e : dict) (f : str) :
  has_key d f = false -> lookup (d ++ e) f = lookup e f.
Proof.
  induction d as [|[k w] d IH]; simpl; [reflexivity|].
  destruct (key_is f k); simpl; [discriminate|auto].
Qed.

Lemma key_is_refl (f : str) : key_is f (PyStr f) = true.
Proof. apply str_eqb_refl. Qed.

End DictFacts.

(* ================================================================== *)
(** * The structured output parser: lemmas *)
(* ================================================================== *)

Section ParserFacts.

Variable json_loads : str -> result value.
Variable literal_eval : str -> result value.
Variable json_dumps : value -> result str.
Variable py_repr : value -> str.

Local Abbreviation clean := MetaTags.clean.
Local Abbreviation required_fields := MetaTags.required_fields.
Local Abbreviation not_specified := MetaTags.not_specified.
Local Abbreviation error_parsing := MetaTags.error_parsing.
Local Abbreviation error_record := MetaTags.error_record.
Local Abbreviation fill_required := MetaTags.fill_required.
Local Abbreviation fill_step := MetaTags.fill_step.
Local Abbreviation decode := (MetaTags.decode json_loads literal_eval).
Local Abbreviation stringify_value := (MetaTags.stringify_value json_dumps py_repr).
Local Abbreviation stringify_items := (MetaTags.stringify_items json_dumps py_repr).
Local Abbreviation parse_body :=
  (MetaTags.parse_body json_loads literal_eval json_dumps py_repr).
Local Abbreviation parse :=
  (MetaTags.parse_meta_tags_json json_loads literal_eval json_dumps py_repr).

(** ** The loop over the items *)

Lemma stringify_items_cons (k v : value) (d r : dict) :
  stringify_items ((k, v) :: d) = inr r ->
  exists t r', stringify_value v = inr t /\ stringify_items d = inr r'
               /\ r = (k, PyStr t) :: r'.
Proof.
  simpl. unfold bind.
  destruct (stringify_value v) as [e|t]; [discriminate|].
  destruct (stringify_items d) as [e|r']; [discriminate|].
  unfold Ok; intros [= <-]; eauto.
Qed.


Lemma stringify_items_str_valued (d r : dict) :
  stringify_items d = inr r -> str_valued r = true.
Proof.
  revert r; induction d as [|[k v] d IH]; intros r H.
  - simpl in H; unfold Ok in H; now inversion H.
  - apply stringify_items_cons in H as (t & r' & _ & Hr & ->).
    simpl; eauto.
Qed.

Lemma stringify_items_has_key (d r : dict) (f : str) :
  stringify_items d = inr r -> has_key r f = has_key d f.
Proof.
  revert r; induction d as [|[k v] d IH]; intros r H.
  - simpl in H; unfold Ok in H; now inversion H.
  - apply stringify_items_cons in H as (t & r' & _ & Hr & ->).
    simpl; f_equal; auto.
Qed.

Lemma stringify_items_lookup (d r : dict) (f : str) (v : value) :
  stringify_items d = inr r -> lookup d f = Some v ->
  exists t, stringify_value v = inr t /\ lookup r f = Some (PyStr t).
Proof.
  revert r; induction d as [|[k w] d IH]; intros r H; [discriminate|].
  apply stringify_items_cons in H as (t & r' & Ht & Hr & ->).
  simpl. destruct (key_is f k).
  - intros [= ->]; eauto.
  - auto.
Qed.

Lemma stringify_items_total (d : dict) :
  (forall k v, In (k, v) d -> exists t, stringify_value v = inr t) ->
  exists r, stringify_items d = inr r.
Proof.
  induction d as [|[k v] d IH]; intros H.
  - exists []; reflexivity.
  - destruct (H k v) as [t Ht]; [now left|].
    destruct IH as [r Hr]; [intros; eapply H; right; eauto|].
    exists ((k, PyStr t) :: r). simpl. now rewrite Ht, Hr.
Qed.

(** On a dictionary of strings the loop changes nothing. *)
Lemma stringify_items_id (d : dict) :
  str_valued d = true -> stringify_items d = inr d.
Proof.
  induction d as [|[k v] d IH]; simpl; [reflexivity|].
  intros H; apply andb_prop in H as [Hv Hd].
  destruct v; try discriminate. simpl.
  now rewrite (IH Hd).
Qed.

(** ** The loop over the required fields *)

Lemma fill_step_old (m : dict) (g f : str) (v : value) :
  lookup m f = Some v -> lookup (fill_step m g) f = Some v.
Proof.
  unfold MetaTags.fill_step, insert_new. destruct (has_key m g); [easy|].
  apply lookup_app_old.
Qed.

Lemma fill_old (fields : list str) (m : dict) (f : str) (v : value) :
  lookup m f = Some v -> lookup (fold_left fill_step fields m) f = Some v.
Proof.
  revert m; induction fields as [|g fields IH]; intros m H; simpl; [easy|].
  apply IH, fill_step_old, H.
Qed.

Lemma fill_step_new (m : dict) (f : str) :
  has_key m f = false ->
  lookup (fill_step m f) f = Some (PyStr not_specified).
Proof.
  intros H. unfold MetaTags.fill_step, insert_new. rewrite H.
  rewrite lookup_app_new by assumption. simpl. now rewrite str_eqb_refl.
Qed.

Lemma fill_step_other (m : dict) (g f : str) :
  has_key m f = false -> g <> f -> has_key (fill_step m g) f = false.
Proof.
  intros H Hne. unfold MetaTags.fill_step, insert_new.
  destruct (has_key m g); [assumption|].
  unfold has_key in *. rewrite existsb_app, H. simpl.
  destruct (str_eqb g f) eqn:E; [|reflexivity].
  apply str_eqb_eq in E; contradiction.
Qed.

Lemma str_eq_dec (a b : str) : {a = b} + {a <> b}.
Proof. apply list_eq_dec, N.eq_dec. Qed.

Lemma fill_new (fields : list str) (m : dict) (f : str) :
  has_key m f = false -> In f fields ->
  lookup (fold_left fill_step fields m) f = Some (PyStr not_specified).
Proof.
  revert m; induction fields as [|g fields IH]; intros m H Hin; [easy|].
  simpl. destruct (str_eq_dec g f) as [->|Hne].
  - apply fill_old, fill_step_new, H.
  - destruct Hin as [->|Hin]; [contradiction|].
    apply IH; [now apply fill_step_other|assumption].
Qed.

Lemma fill_step_str_valued (m : dict) (g : str) :
  str_valued m = true -> str_valued (fill_step m g) = true.
Proof.
  intros H. unfold MetaTags.fill_step, insert_new. destruct (has_key m g); [easy|].
  unfold str_valued in *. rewrite forallb_app, H. reflexivity.
Qed.

Lemma fill_str_valued (fields : list str) (m : dict) :
  str_valued m = true -> str_valued (fold_left fill_step fields m) = true.
Proof.
  revert m; induction fields as [|g fields IH]; intros m H; simpl; [easy|].
  apply IH, fill_step_str_valued, H.
Qed.

Lemma fill_id (fields : list str) (m : dict) :
  (forall f, In f fields -> has_key m f = true) ->
  fold_left fill_step fields m = m.
Proof.
  induction fields as [|g fields IH]; intros H; simpl; [easy|].
  unfold MetaTags.fill_step at 2. rewrite (H g) by now left.
  apply IH; intros; apply H; now right.
Qed.


Lemma fill_required_unfold (m : dict) :
  fill_required m = fold_left fill_step required_fields m.
Proof. reflexivity. Qed.

(** ** The record of the exception handler *)

Lemma error_record_lookup (f : str) :
  In f required_fields -> lookup error_record f = Some (PyStr error_parsing).
Proof.
  intros H. simpl in H.
  repeat (destruct H as [<-|H]; [reflexivity|]). contradiction.
Qed.


(** ** The body of the [try] block *)

Lemma parse_body_inr (s : str) (r : dict) :
  parse_body s = inr r ->
  exists d d', decode (clean s) = inr (PyDict d)
               /\ stringify_items d = inr d' /\ r = fill_required d'.
Proof.
  unfold MetaTags.parse_body, bind.
  destruct (decode (clean s)) as [e|v]; [discriminate|].
  destruct v; try (unfold Raise; discriminate).
  destruct (stringify_items d) as [e|d'] eqn:Hs; [discriminate|].
  unfold Ok; intros [= <-]. now exists d, d'.
Qed.

Lemma parse_of_dict (s : str) (d d' : dict) :
  decode (clean s) = inr (PyDict d) -> stringify_items d = inr d' ->
  parse s = fill_required d'.
Proof.
  intros Hd Hs. unfold MetaTags.parse_meta_tags_json, MetaTags.parse_body, bind.
  now rewrite Hd, Hs.
Qed.

Lemma parse_of_failure (s : str) (e : exn) :
  decode (clean s) = inl e -> parse s = error_record.
Proof.
  intros Hd. unfold MetaTags.parse_meta_tags_json, MetaTags.parse_body, bind.
  now rewrite Hd.
Qed.

(** The result depends on the text through [clean] only. *)
Lemma parse_clean (s s' : str) : clean s = clean s' -> parse s = parse s'.
Proof.
  intros H. unfold MetaTags.parse_meta_tags_json, MetaTags.parse_body.
  now rewrite H.
Qed.

Lemma parse_str_valued (s : str) : str_valued (parse s) = true.
Proof.
  unfold MetaTags.parse_meta_tags_json.
  destruct (parse_body s) as [e|r] eqn:E; [reflexivity|].
  apply parse_body_inr in E as (d & d' & _ & Hs & ->).
  apply fill_str_valued. eapply stringify_items_str_valued; eauto.
Qed.

Lemma parse_has_required (s : str) (f : str) :
  In f required_fields -> has_key (parse s) f = true.
Proof.
  intros Hf. unfold MetaTags.parse_meta_tags_json.
  destruct (parse_body s) as [e|r] eqn:E.
  - eapply lookup_has_key, error_record_lookup, Hf.
  - apply parse_body_inr in E as (d & d' & _ & Hs & ->).
    rewrite fill_required_unfold.
    destruct (has_key d' f) eqn:K.
    + destruct (has_key_lookup _ _ K) as [v Hv].
      eapply lookup_has_key, fill_old, Hv.
    + eapply lookup_has_key, fill_new; eauto.
Qed.

(** ** Trimming and the code fence *)

Lemma clean_fenced (s pre post : str) :
  forallb isspace pre = true -> forallb isspace post = true ->
  clean (py "```json" ++ pre ++ s ++ post ++ py "```") = strip s.
Proof.
  intros Hpre Hpost. unfold MetaTags.clean.
  set (T := py "```").
  assert (Hw : strip (py "```json" ++ pre ++ s ++ post ++ T)
               = py "```json" ++ pre ++ s ++ post ++ T).
  { replace (py "```json" ++ pre ++ s ++ post ++ T)
      with (96%N :: (py "``json" ++ pre ++ s ++ post ++ py "``") ++ [96%N]).
    - now apply strip_delimited.
    - subst T. simpl. rewrite <- !app_assoc. reflexivity. }
  rewrite Hw.
  replace (startswith (py "```json" ++ pre ++ s ++ post ++ T) (py "```json"))
    with true by reflexivity.
  replace (slice_from 7 (py "```json" ++ pre ++ s ++ post ++ T))
    with ((pre ++ s ++ post) ++ T)
    by (unfold slice_from; simpl; now rewrite <- !app_assoc).
  rewrite endswith_app.
  change 3 with (length T). rewrite slice_drop_last_app.
  now apply strip_pad.
Qed.

Lemma clean_plain (s : str) :
  startswith (strip s) (py "```json") = false ->
  endswith (strip s) (py "```") = false ->
  clean s = strip s.
Proof.
  intros H1 H2. unfold MetaTags.clean. rewrite H1, H2. apply strip_idem.
Qed.

(** A text in braces has nothing to trim and no fence. *)
Lemma clean_braces (body : str) :
  clean (py "{" ++ body ++ py "}") = py "{" ++ body ++ py "}".
Proof.
  assert (Hs : strip (py "{" ++ body ++ py "}") = py "{" ++ body ++ py "}")
    by now apply (strip_delimited 123%N 125%N body).
  apply eq_trans with (strip (py "{" ++ body ++ py "}")); [|exact Hs].
  apply clean_plain; rewrite Hs; [reflexivity|].
  unfold endswith. simpl. rewrite rev_app_distr. reflexivity.
Qed.

(** ** The keys of the record *)





(** ** The claims on the parser *)


(** C3.  When the strict JSON parse of the cleaned text gives an object
    (whose values can all be turned into strings), every required key the
    object lacks is mapped to ["Not specified"], and every key the object
    has stays in the record: a key it maps to a string is mapped to the
    same string, a key it maps to a list or to an object is mapped to the
    text [json.dumps] gives for it, and a key it maps to another value (a
    number, [true], [false], [null]) is mapped to the [str] of the
    value. *)
Theorem missing_fields_get_the_default (s : str) (d : dict) :
  json_loads (clean s) = inr (PyDict d) ->
  (forall k v, In (k, v) d -> exists t, stringify_value v = inr t) ->
  forall f,
    (In f required_fields -> has_key d f = false ->
     lookup (parse s) f = Some (PyStr not_specified))
    /\ (forall t, lookup d f = Some (PyStr t) ->
        lookup (parse s) f = Some (PyStr t))
    /\ (forall v, lookup d f = Some v ->
        exists t,
          lookup (parse s) f = Some (PyStr t)
          /\ match v with
             | PyStr x => t = x
             | PyList _ | PyDict _ => json_dumps v = inr t
             | _ => t = py_repr v
             end).
Proof.
  intros Hl Hv f.
  assert (Hd : decode (clean s) = inr (PyDict d))
    by (unfold MetaTags.decode; now rewrite Hl).
  destruct (stringify_items_total d Hv) as [d' Hs].
  rewrite (parse_of_dict s d d' Hd Hs), fill_required_unfold.
  split; [|split].
  - intros Hf Hk. apply fill_new; [|assumption].
    now rewrite (stringify_items_has_key _ _ f Hs).
  - intros t Ht.
    destruct (stringify_items_lookup _ _ _ _ Hs Ht) as (t' & Ht' & Hl').
    simpl in Ht'; unfold Ok in Ht'; injection Ht' as <-.
    now apply fill_old.
  - intros v Hf.
    destruct (stringify_items_lookup _ _ _ _ Hs Hf) as (t & Ht & Hl').
    exists t. split; [now apply fill_old|].
    destruct v; simpl in Ht; unfold Ok in Ht; try (now injection Ht);
      exact Ht.
Qed.

(** C4.  When the strict JSON parse and the Python-literal parse of the
    cleaned text both raise, the parser returns the record that maps each
    of the 11 required keys to ["Error parsing"]. *)
Theorem unparsable_text_gives_the_error_record (s : str) (e1 e2 : exn) :
  json_loads (clean s) = inl e1 ->
  literal_eval (clean s) = inl e2 ->
  parse s = error_record
  /\ (forall f, In f required_fields ->
        lookup (parse s) f = Some (PyStr error_parsing)).
Proof.
  intros H1 H2.
  assert (H : exists e, decode (clean s) = inl e).
  { unfold MetaTags.decode. rewrite H1, H2.
    destruct (isinstance e1 JSONDecodeError); eauto. }
  destruct H as [e He].
  rewrite (parse_of_failure s e He).
  split; [reflexivity|apply error_record_lookup].
Qed.

(** C5 (amended).  Serialise the record the parser returned for a text and
    parse the serialisation: whenever the JSON library reads the
    serialisation, an object in braces, back as that same record, the
    second record is the first one. *)
Theorem serialised_record_parses_to_itself (s j body : str) :
  json_dumps (PyDict (parse s)) = inr j ->
  j = py "{" ++ body ++ py "}" ->
  json_loads j = inr (PyDict (parse s)) ->
  parse j = parse s.
Proof.
  intros _ -> Hl.
  assert (Hd : decode (clean (py "{" ++ body ++ py "}"))
               = inr (PyDict (parse s))).
  { rewrite clean_braces. unfold MetaTags.decode. now rewrite Hl. }
  rewrite (parse_of_dict _ _ _ Hd (stringify_items_id _ (parse_str_valued s))).
  rewrite fill_required_unfold. apply fill_id.
  intros f Hf. now apply parse_has_required.
Qed.

(** C6 (amended).  Put a text between a leading [```json] fence and a
    trailing [```] fence, with optional white space inside the fences.
    When the trimmed text has no fence of its own, the fenced text and the
    text give the same record. *)
Theorem fenced_text_parses_like_the_text (s pre post : str) :
  forallb isspace pre = true ->
  forallb isspace post = true ->
  startswith (strip s) (py "```json") = false ->
  endswith (strip s) (py "```") = false ->
  parse (py "```json" ++ pre ++ s ++ post ++ py "```") = parse s.
Proof.
  intros Hpre Hpost H1 H2. apply parse_clean.
  rewrite clean_fenced by assumption.
  symmetry. now apply clean_plain.
Qed.

End ParserFacts.

(* ================================================================== *)
(** * The structured output parser on the sample texts *)
(* ================================================================== *)

Section ParserExamples.

Local Abbreviation parse := Reference.parse_meta_tags_json.

(** Membership in a list given in full. *)
Ltac in_list := vm_compute; repeat (first [left; reflexivity | right]).


(** C3 on an object that lacks 3 of the required keys and has a list and
    a number among its values. *)
Lemma missing_fields_witness :
  lookup (parse Samples.tags_with_values) (py "keywords")
  = Some (PyStr MetaTags.not_specified)
  /\ lookup (parse Samples.tags_with_values) (py "character_secondary")
     = Some (PyStr (py "her brother"))
  /\ lookup (parse Samples.tags_with_values) (py "character_primary")
     = Some (PyStr (Reference.dq "['Meera', 'Arun']"))
  /\ lookup (parse Samples.tags_with_values) (py "events_secondary")
     = Some (PyStr (py "2")).
Proof.
  pose (d := match Reference.loads
                     (MetaTags.clean Samples.tags_with_values) with
             | inr (PyDict d) => d
             | _ => []
             end).
  assert (Hl : Reference.loads (MetaTags.clean Samples.tags_with_values)
               = inr (PyDict d)) by (vm_compute; reflexivity).
  assert (Hv : forall k v, In (k, v) d ->
               exists t, MetaTags.stringify_value
                           Reference.dumps Reference.repr v = inr t).
  { intros k v Hin. vm_compute in Hin.
    repeat (destruct Hin as [Hin|Hin];
            [injection Hin as <- <-; eexists; vm_compute; reflexivity|]).
    contradiction. }
  pose proof (missing_fields_get_the_default
                Reference.loads Reference.leval Reference.dumps
                Reference.repr Samples.tags_with_values d Hl Hv) as H.
  unfold Reference.parse_meta_tags_json.
  split; [|split; [|split]].
  - apply (proj1 (H (py "keywords"))).
    + in_list.
    + vm_compute. reflexivity.
  - apply (proj1 (proj2 (H (py "character_secondary")))).
    vm_compute. reflexivity.
  - destruct (proj2 (proj2 (H (py "character_primary")))
                (PyList [PyStr (py "Meera"); PyStr (py "Arun")]))
      as (t & Ht & Hd); [vm_compute; reflexivity|].
    rewrite Ht. vm_compute in Hd. injection Hd as <-. reflexivity.
  - destruct (proj2 (proj2 (H (py "events_secondary"))) (PyInt 2))
      as (t & Ht & Hd); [vm_compute; reflexivity|].
    rewrite Ht. vm_compute in Hd. subst t. reflexivity.
Defined.

(** C4 on prose: both parses raise, and the record is the error record. *)
Lemma unparsable_text_witness :
  (exists e1 e2,
     Reference.loads (MetaTags.clean Reference.prose) = inl e1
     /\ Reference.leval (MetaTags.clean Reference.prose) = inl e2)
  /\ parse Reference.prose = MetaTags.error_record.
Proof.
  split.
  - do 2 eexists. split; vm_compute; reflexivity.
  - eapply (proj1 (unparsable_text_gives_the_error_record
                     Reference.loads Reference.leval Reference.dumps
                     Reference.repr Reference.prose _ _ _ _)).
    Unshelve.
    + exact (mk_exn JSONDecodeError (py "Expecting value")).
    + exact (mk_exn SyntaxError (py "invalid syntax")).
    + vm_compute. reflexivity.
    + vm_compute. reflexivity.
Defined.

(** C5, as stated, fails: the Python literal [{1: 'a'}] gives a record with
    the integer key [1]; its serialisation has the string key ["1"], and so
    has the record parsed from the serialisation. *)
Lemma integer_key_is_not_read_back :
  exists j,
    Reference.json_dumps (PyDict (parse Reference.literal_with_int_key))
    = Reference.Done j
    /\ hd_error (parse Reference.literal_with_int_key)
       = Some (PyInt 1, PyStr (py "a"))
    /\ hd_error (parse j) = Some (PyStr (py "1"), PyStr (py "a"))
    /\ parse j <> parse Reference.literal_with_int_key.
Proof.
  eexists. split; [vm_compute; reflexivity|].
  split; [vm_compute; reflexivity|].
  split; [vm_compute; reflexivity|].
  vm_compute. discriminate.
Qed.

(** C5 (amended) on an object with a list as a value. *)
Lemma serialised_record_witness :
  exists j,
    Reference.dumps (PyDict (parse Reference.tags_with_list)) = inr j
    /\ j = py "{" ++ removelast (tl j) ++ py "}"
    /\ Reference.loads j = inr (PyDict (parse Reference.tags_with_list))
    /\ parse j = parse Reference.tags_with_list.
Proof.
  eexists. split; [vm_compute; reflexivity|].
  split; [vm_compute; reflexivity|].
  split; [vm_compute; reflexivity|].
  match goal with
  | |- Reference.parse_meta_tags_json ?j = _ =>
      apply (serialised_record_parses_to_itself
               Reference.loads Reference.leval Reference.dumps Reference.repr
               Reference.tags_with_list j (removelast (tl j)))
  end; vm_compute; reflexivity.
Defined.

(** C6, as stated, fails: the text [```json{}```] gives the record of the
    empty object; between fences, the inner fence stays and no parse
    succeeds. *)
Lemma fence_inside_fence_differs :
  parse Reference.fenced_empty_object = MetaTags.fill_required []
  /\ parse (py "```json" ++ Reference.fenced_empty_object ++ py "```")
     = MetaTags.error_record
  /\ parse (py "```json" ++ Reference.fenced_empty_object ++ py "```")
     <> parse Reference.fenced_empty_object.
Proof.
  split; [vm_compute; reflexivity|].
  split; [vm_compute; reflexivity|].
  vm_compute. discriminate.
Qed.

(** C6 (amended) on an object, with a line break inside each fence. *)
Lemma fenced_text_witness :
  parse (py "```json" ++ [nl] ++ Reference.tags_with_list ++ [nl] ++ py "```")
  = parse Reference.tags_with_list.
Proof.
  apply (fenced_text_parses_like_the_text
           Reference.loads Reference.leval Reference.dumps Reference.repr
           Reference.tags_with_list [nl] [nl]);
    vm_compute; reflexivity.
Defined.

End ParserExamples.

(* ================================================================== *)
(** * The batch driver: lemmas *)
(* ================================================================== *)

Section DriverFacts.

Variable py_repr : value -> str.
Variable w : AudioEval.world.

Local Abbreviation speech_to_text_sarvam := (AudioEval.speech_to_text_sarvam w).
Local Abbreviation translate_with_gemini :=
  (AudioEval.translate_with_gemini py_repr w).
Local Abbreviation speech_to_text_gemini := (AudioEval.speech_to_text_gemini w).
Local Abbreviation try_block := (AudioEval.try_block py_repr w).
Local Abbreviation process_file := (AudioEval.process_file py_repr w).
Local Abbreviation process_files := (AudioEval.process_files py_repr w).
Local Abbreviation process_all_audio_files :=
  (AudioEval.process_all_audio_files py_repr w).
Local Abbreviation file_row := (AudioEval.file_row py_repr w).
Local Abbreviation accrued := (AudioEval.accrued py_repr w).
Local Abbreviation sum_accrued := (AudioEval.sum_accrued py_repr w).
Local Abbreviation audio_files := (AudioEval.audio_files w).

(** Unfolds the sequencing of the [try] block. *)
Ltac run_block :=
  unfold AudioEval.try_block, AudioEval.mbind, AudioEval.call,
    AudioEval.update, AudioEval.ret.

(** What the [try] block returns does not depend on the totals, and what it
    adds to them is what the stages that returned accrued. *)
Lemma try_block_spec (file_path : AudioEval.path) (filename : str)
  (t : AudioEval.totals) :
  try_block file_path filename t
  = (fst (try_block file_path filename AudioEval.no_totals),
     AudioEval.add_accrual (accrued file_path) t).
Proof.
  run_block. unfold AudioEval.accrued, AudioEval.gemini_stage.
  destruct (speech_to_text_sarvam file_path)
    as [e|[[[tr lang] lat] cost]]; [reflexivity|].
  destruct (AudioEval.needs_translation lang).
  - destruct (translate_with_gemini tr lang) as [e|[[x tl] tc]];
      [reflexivity|].
    destruct (speech_to_text_gemini file_path) as [e|[[g gl] gc]];
      reflexivity.
  - destruct (speech_to_text_gemini file_path) as [e|[[g gl] gc]];
      reflexivity.
Qed.

Lemma process_file_spec (folder_path file_path : AudioEval.path)
  (t : AudioEval.totals) :
  process_file folder_path file_path t
  = (file_row folder_path file_path,
     AudioEval.add_accrual (accrued file_path) t).
Proof.
  unfold AudioEval.file_row, AudioEval.process_file.
  rewrite (try_block_spec file_path _ t).
  rewrite (try_block_spec file_path _ AudioEval.no_totals).
  simpl.
  destruct (fst (try_block file_path
                   (AudioEval.relpath w file_path folder_path)
                   AudioEval.no_totals)); reflexivity.
Qed.

Lemma process_files_from (folder_path : AudioEval.path)
  (files : list AudioEval.path) (acc : list AudioEval.row)
  (t : AudioEval.totals) :
  fold_left
    (fun '(results, t) file_path =>
       let '(r, t') := process_file folder_path file_path t in
       (results ++ [r], t'))
    files (acc, t)
  = (acc ++ map (file_row folder_path) files,
     fold_left (fun t f => AudioEval.add_accrual (accrued f) t) files t).
Proof.
  revert acc t; induction files as [|f files IH]; intros acc t; simpl.
  - now rewrite app_nil_r.
  - rewrite process_file_spec, IH, <- app_assoc. reflexivity.
Qed.

Lemma process_files_spec (folder_path : AudioEval.path)
  (files : list AudioEval.path) :
  process_files folder_path files
  = (map (file_row folder_path) files,
     fold_left (fun t f => AudioEval.add_accrual (accrued f) t) files
       AudioEval.no_totals).
Proof. apply (process_files_from folder_path files []). Qed.

(** A total after the loop is the sum of what its stage accrued. *)
Lemma total_is_sum (proj : AudioEval.totals -> float)
  (pick : AudioEval.accrual -> option float) :
  (forall a t, proj (AudioEval.add_accrual a t)
               = match pick a with
                 | Some x => (proj t + x)%float
                 | None => proj t
                 end) ->
  forall files t,
    proj (fold_left (fun t f => AudioEval.add_accrual (accrued f) t) files t)
    = fold_left
        (fun acc f => match pick (accrued f) with
                      | Some x => (acc + x)%float
                      | None => acc
                      end)
        files (proj t).
Proof.
  intros H files; induction files as [|f files IH]; intros t; simpl.
  - reflexivity.
  - now rewrite IH, H.
Qed.

Ltac by_stages :=
  intros [[[l1 c1]|] [[l2 c2]|] [[l3 c3]|]] t; reflexivity.

Lemma totals_are_sums (files : list AudioEval.path) :
  let t := fold_left (fun t f => AudioEval.add_accrual (accrued f) t) files
             AudioEval.no_totals in
  AudioEval.total_sarvam_time t
  = sum_accrued (fun a => AudioEval.latency_of (AudioEval.by_sarvam a)) files
  /\ AudioEval.total_sarvam_cost t
     = sum_accrued (fun a => AudioEval.cost_of (AudioEval.by_sarvam a)) files
  /\ AudioEval.total_translation_time t
     = sum_accrued
         (fun a => AudioEval.latency_of (AudioEval.by_translation a)) files
  /\ AudioEval.total_translation_cost t
     = sum_accrued
         (fun a => AudioEval.cost_of (AudioEval.by_translation a)) files
  /\ AudioEval.total_gemini_time t
     = sum_accrued (fun a => AudioEval.latency_of (AudioEval.by_gemini a)) files
  /\ AudioEval.total_gemini_cost t
     = sum_accrued (fun a => AudioEval.cost_of (AudioEval.by_gemini a)) files.
Proof.
  unfold AudioEval.sum_accrued.
  repeat split.
  - apply (total_is_sum AudioEval.total_sarvam_time
             (fun a => AudioEval.latency_of (AudioEval.by_sarvam a))).
    by_stages.
  - apply (total_is_sum AudioEval.total_sarvam_cost
             (fun a => AudioEval.cost_of (AudioEval.by_sarvam a))).
    by_stages.
  - apply (total_is_sum AudioEval.total_translation_time
             (fun a => AudioEval.latency_of (AudioEval.by_translation a))).
    by_stages.
  - apply (total_is_sum AudioEval.total_translation_cost
             (fun a => AudioEval.cost_of (AudioEval.by_translation a))).
    by_stages.
  - apply (total_is_sum AudioEval.total_gemini_time
             (fun a => AudioEval.latency_of (AudioEval.by_gemini a))).
    by_stages.
  - apply (total_is_sum AudioEval.total_gemini_cost
             (fun a => AudioEval.cost_of (AudioEval.by_gemini a))).
    by_stages.
Qed.

(** ** Floats *)

(** Rounding a positive mantissa whose exponent is not below the least
    one: the shifts keep it positive. *)
Lemma shr_1_m (r : shr_record) :
  (0 <= shr_m r)%Z ->
  shr_m (shr_1 r) = (shr_m r / 2)%Z /\ (0 <= shr_m (shr_1 r))%Z.
Proof.
  destruct r as [m r s]; simpl. intros Hm.
  rewrite <- Z.div2_div.
  destruct m as [|[p|p|]|p]; simpl; try lia.
Qed.

Lemma iter_shr_1_m (p : positive) : forall r,
  (0 <= shr_m r)%Z ->
  shr_m (iter_pos shr_1 p r) = (shr_m r / 2 ^ Zpos p)%Z
  /\ (0 <= shr_m (iter_pos shr_1 p r))%Z.
Proof.
  induction p as [p IH|p IH|]; intros r Hr; cbn [iter_pos].
  - destruct (shr_1_m r Hr) as [E1 P1].
    destruct (IH _ P1) as [E2 P2].
    destruct (IH _ P2) as [E3 P3].
    split; [|assumption].
    rewrite E3, E2, E1.
    rewrite !Z.div_div by lia.
    f_equal.
    replace (Z.pos p~1) with (1 + Z.pos p + Z.pos p)%Z by lia.
    rewrite !Z.pow_add_r by lia. lia.
  - destruct (IH _ Hr) as [E2 P2].
    destruct (IH _ P2) as [E3 P3].
    split; [|assumption].
    rewrite E3, E2.
    rewrite !Z.div_div by lia.
    f_equal.
    replace (Z.pos p~0) with (Z.pos p + Z.pos p)%Z by lia.
    rewrite !Z.pow_add_r by lia. lia.
  - destruct (shr_1_m r Hr) as [E1 P1]. split; [|assumption].
    rewrite E1. reflexivity.
Qed.

Lemma digits2_pos_lower (p : positive) :
  (2 ^ (Zpos (digits2_pos p) - 1) <= Zpos p)%Z.
Proof.
  induction p as [p IH|p IH|]; cbn [digits2_pos].
  - rewrite Pos2Z.inj_succ.
    replace (Z.succ (Z.pos (digits2_pos p)) - 1)%Z
      with (Z.succ (Z.pos (digits2_pos p) - 1)) by lia.
    rewrite Z.pow_succ_r by lia. lia.
  - rewrite Pos2Z.inj_succ.
    replace (Z.succ (Z.pos (digits2_pos p)) - 1)%Z
      with (Z.succ (Z.pos (digits2_pos p) - 1)) by lia.
    rewrite Z.pow_succ_r by lia. lia.
  - reflexivity.
Qed.

Lemma shr_fexp_pos (m : positive) (e : Z) (l : location) :
  (-1074 <= e)%Z ->
  let '(r, e') := shr_fexp prec emax (Zpos m) e l in
  (0 < shr_m r)%Z /\ (e <= e')%Z.
Proof.
  intros He. unfold shr_fexp, shr. simpl Zdigits2.
  set (d := Z.pos (digits2_pos m)).
  assert (Hd : (2 ^ (d - 1) <= Zpos m)%Z) by apply digits2_pos_lower.
  assert (Hd1 : (1 <= d)%Z) by (subst d; lia).
  set (n := (fexp prec emax (d + e) - e)%Z).
  assert (Hn : (n < d)%Z).
  { subst n. unfold fexp, emin, prec, emax. lia. }
  assert (H0 : (0 <= shr_m (shr_record_of_loc (Z.pos m) l))%Z).
  { destruct l as [|[]]; simpl; lia. }
  assert (Hm : shr_m (shr_record_of_loc (Z.pos m) l) = Zpos m).
  { destruct l as [|[]]; reflexivity. }
  destruct n as [|p|p] eqn:En.
  - rewrite Hm. lia.
  - destruct (iter_shr_1_m p _ H0) as [E _]. rewrite E, Hm.
    split; [|lia].
    apply Z.div_str_pos. split; [apply Z.pow_pos_nonneg; lia|].
    apply Z.le_trans with (2 ^ (d - 1))%Z; [|assumption].
    apply Z.pow_le_mono_r; lia.
  - rewrite Hm. lia.
Qed.

Lemma round_nearest_even_pos (m : Z) (l : location) :
  (0 < m)%Z -> (0 < round_nearest_even m l)%Z.
Proof.
  intros H. destruct l as [|[]]; simpl; try lia.
  destruct (Z.even m); lia.
Qed.

Lemma binary_round_aux_pos (m : positive) (e : Z) :
  (-1074 <= e)%Z ->
  binary_round_aux prec emax false (Zpos m) e loc_Exact = S754_infinity false
  \/ exists m' e', binary_round_aux prec emax false (Zpos m) e loc_Exact
                   = S754_finite false m' e' /\ (e <= e')%Z.
Proof.
  intros He. unfold binary_round_aux.
  pose proof (shr_fexp_pos m e loc_Exact He) as H1.
  destruct (shr_fexp prec emax (Z.pos m) e loc_Exact) as [r1 e1].
  destruct H1 as [P1 L1].
  pose proof (round_nearest_even_pos _ (loc_of_shr_record r1) P1) as P2.
  destruct (round_nearest_even (shr_m r1) (loc_of_shr_record r1))
    as [|m2|m2]; try lia.
  pose proof (shr_fexp_pos m2 e1 loc_Exact ltac:(lia)) as H3.
  destruct (shr_fexp prec emax (Z.pos m2) e1 loc_Exact) as [r3 e3].
  destruct H3 as [P3 L3].
  destruct (shr_m r3) as [|m3|m3]; try lia.
  destruct (e3 <=? emax - prec)%Z; [right|left; reflexivity].
  exists m3, e3. split; [reflexivity|lia].
Qed.

(** The product of two positive floats is positive when the exponents do
    not go below the least one. *)
Lemma mul_positive_from (k1 k2 : Z) (x y : float) :
  (-1074 <= k1 + k2)%Z ->
  positive_from k1 x -> positive_from k2 y ->
  positive_from (k1 + k2) (x * y).
Proof.
  unfold positive_from. rewrite FloatAxioms.mul_spec. intros Hk.
  destruct (Prim2SF x) as [sx|[|]| |[|] mx ex]; try easy;
    destruct (Prim2SF y) as [sy|[|]| |[|] my ey]; try easy.
  intros Hx Hy. unfold SF64mul, SFmul. simpl xorb.
  destruct (binary_round_aux_pos (mx * my) (ex + ey) ltac:(lia))
    as [->|(m' & e' & -> & He)]; [exact I|lia].
Qed.

Lemma positive_from_ltb (k : Z) (x : float) :
  positive_from k x -> PrimFloat.ltb 0 x = true.
Proof.
  unfold positive_from. rewrite FloatAxioms.ltb_spec.
  replace (Prim2SF 0) with (S754_zero false) by (vm_compute; reflexivity).
  destruct (Prim2SF x) as [sx|[|]| |[|] mx ex]; easy.
Qed.

Lemma one_leb_positive_from (d : float) :
  PrimFloat.leb 1 d = true -> positive_from (-52) d.
Proof.
  unfold positive_from. rewrite FloatAxioms.leb_spec. unfold SFleb.
  replace (Prim2SF 1) with (S754_finite false 4503599627370496 (-52))
    by (vm_compute; reflexivity).
  destruct (Prim2SF d) as [sx|[|]| |[|] mx ex]; simpl; try easy.
  destruct ex as [|p|p]; simpl; try lia.
  destruct (52 ?= p)%positive eqn:E; simpl; try easy.
  - apply Pos.compare_eq in E. subst. lia.
  - rewrite Pos.compare_gt_iff in E. lia.
Qed.

(** A duration of at least one second has a Sarvam cost and a Gemini
    audio cost above zero. *)
Lemma sarvam_cost_positive (d : float) :
  PrimFloat.leb 1 d = true ->
  PrimFloat.ltb 0
    (d * AudioEval.sarvam_price AudioEval.sarvam_model 0.00002)%float = true.
Proof.
  intros H. apply (positive_from_ltb (-52 + -63)).
  apply mul_positive_from; [lia|now apply one_leb_positive_from|].
  vm_compute. easy.
Qed.

Lemma gemini_audio_cost_positive (d : float) :
  PrimFloat.leb 1 d = true ->
  PrimFloat.ltb 0 (d * 50 * AudioEval.GEMINI_input_audio)%float = true.
Proof.
  intros H. apply (positive_from_ltb (-52 + -47 + -72)).
  apply mul_positive_from; [lia| |vm_compute; easy].
  apply mul_positive_from; [lia|now apply one_leb_positive_from|].
  vm_compute. easy.
Qed.

Lemma ltb_leb (x y : float) :
  PrimFloat.ltb x y = true -> PrimFloat.leb x y = true.
Proof.
  rewrite FloatAxioms.ltb_spec, FloatAxioms.leb_spec. unfold SFltb, SFleb.
  destruct (SFcompare (Prim2SF x) (Prim2SF y)) as [[]|]; easy.
Qed.

Lemma one_leb_nonzero (d : float) :
  PrimFloat.leb 1 d = true -> PrimFloat.eqb d 0 = false.
Proof.
  rewrite FloatAxioms.leb_spec, FloatAxioms.eqb_spec. unfold SFleb, SFeqb.
  replace (Prim2SF 1) with (S754_finite false 4503599627370496 (-52))
    by (vm_compute; reflexivity).
  replace (Prim2SF 0) with (S754_zero false) by (vm_compute; reflexivity).
  destruct (Prim2SF d) as [s|s| |s m e]; simpl; try easy.
  all: try (intros _; now destruct s).
Qed.

Lemma max_1_ge_1 (x : float) : PrimFloat.leb 1 (max_1 x) = true.
Proof.
  unfold max_1. destruct (PrimFloat.ltb 1 x) eqn:E.
  - now apply ltb_leb.
  - vm_compute. reflexivity.
Qed.

Lemma size_estimate_ge_1 (file_path : AudioEval.path) :
  PrimFloat.leb 1 (AudioEval.size_estimate w file_path) = true.
Proof.
  unfold AudioEval.size_estimate.
  destruct (AudioEval.getsize w file_path); [vm_compute; reflexivity|].
  apply max_1_ge_1.
Qed.

Lemma sarvam_cost_is_duration_times_price
  (file_path : AudioEval.path) (tr lang : value) (lat cost : float) :
  speech_to_text_sarvam file_path = inr (tr, lang, lat, cost) ->
  cost = (AudioEval.get_audio_duration w file_path
          * AudioEval.sarvam_price AudioEval.sarvam_model 0.00002)%float.
Proof.
  unfold AudioEval.speech_to_text_sarvam, bind.
  destruct (AudioEval.open_rb w file_path) as [e|u]; [discriminate|].
  destruct (AudioEval.post_sarvam w file_path) as [e|[response latency]];
    [discriminate|].
  destruct (negb (AudioEval.status_code response =? 200)%Z);
    [unfold Raise; discriminate|].
  destruct (AudioEval.resp_json response) as [e|body]; [discriminate|].
  destruct (get body (py "transcript") _) as [e|transcript]; [discriminate|].
  destruct (get body (py "language_code") _) as [e|detected_lang];
    [discriminate|].
  unfold Ok. now intros [= _ _ _ <-].
Qed.

Lemma estimate_tokens_flen (text : str) :
  AudioEval.estimate_tokens text = (AudioEval.flen text / 4)%float.
Proof.
  destruct text; [vm_compute|]; reflexivity.
Qed.

(** ** The claims on the audio pipeline *)




(** C7 (amended).  When the translation call returns a text, its cost is
    [(len(prompt)/4) * input_text_price + (len(output)/4) *
    output_text_price] in binary64 arithmetic.  For a prompt of 400
    characters and an output of 80 characters this is the binary64 value of
    [(100*0.3e-6)+(20*2.5e-6)], which is [7.9999999999999993e-05], the
    double just below [0.00008]. *)
Theorem translation_cost_is_token_based :
  (forall text source_lang response latency body translation,
      let prompt := AudioEval.translation_prompt py_repr text source_lang in
      AudioEval.post_translate w prompt = inr (response, latency) ->
      AudioEval.ok response = true ->
      AudioEval.resp_json response = inr body ->
      AudioEval.translation_text body = inr translation ->
      translate_with_gemini text source_lang
      = inr (Some translation, latency,
             (AudioEval.flen prompt / 4 * AudioEval.GEMINI_input_text
              + AudioEval.flen translation / 4 * AudioEval.GEMINI_output_text)
             %float))
  /\ (forall prompt translation,
        length prompt = 400 -> length translation = 80 ->
        let cost := AudioEval.translation_cost prompt translation in
        cost = (100 * 0.3e-6 + 20 * 2.5e-6)%float
        /\ cost = 7.9999999999999993e-05%float
        /\ PrimFloat.next_up cost = 0.00008%float).
Proof.
  split.
  - intros text source_lang response latency body translation prompt
      Hpost Hok Hjson Htext.
    unfold AudioEval.translate_with_gemini, bind. fold prompt.
    rewrite Hpost, Hok, Hjson, Htext.
    unfold AudioEval.translation_cost. now rewrite !estimate_tokens_flen.
  - intros prompt translation Hp Ht cost. subst cost.
    unfold AudioEval.translation_cost.
    rewrite !estimate_tokens_flen. unfold AudioEval.flen.
    rewrite Hp, Ht. vm_compute. auto.
Qed.

(** C8.  When decoding the audio fails, the duration is the estimate from
    the file size, [max(1, file_size / (1024*1024) * 60)], and [1] when the
    size cannot be read either.  It is at least 1 second, so it is not
    zero, and neither is the cost computed from it: the Sarvam cost of the
    file and the audio part of its Gemini cost are above zero. *)
Theorem failed_probe_uses_the_size_estimate
  (file_path : AudioEval.path) (e : exn) :
  AudioEval.decode_length w file_path = inl e ->
  let duration := AudioEval.get_audio_duration w file_path in
  (forall file_size,
      AudioEval.getsize w file_path = inr file_size ->
      duration = max_1 (float_of_size file_size / 1048576 * 60)%float)
  /\ ((exists e', AudioEval.getsize w file_path = inl e') ->
      duration = 1%float)
  /\ PrimFloat.leb 1 duration = true
  /\ PrimFloat.eqb duration 0 = false
  /\ (forall tr lang lat cost,
        speech_to_text_sarvam file_path = inr (tr, lang, lat, cost) ->
        PrimFloat.ltb 0 cost = true)
  /\ PrimFloat.ltb 0 (duration * 50 * AudioEval.GEMINI_input_audio)%float
     = true.
Proof.
  intros He duration.
  assert (Hd : duration = AudioEval.size_estimate w file_path).
  { subst duration. unfold AudioEval.get_audio_duration. rewrite He.
    now destruct (AudioEval.PYDUB_AVAILABLE w). }
  assert (H1 : PrimFloat.leb 1 duration = true)
    by (rewrite Hd; apply size_estimate_ge_1).
  repeat split.
  - intros file_size Hs. rewrite Hd.
    unfold AudioEval.size_estimate. now rewrite Hs.
  - intros [e' Hs]. rewrite Hd.
    unfold AudioEval.size_estimate. now rewrite Hs.
  - exact H1.
  - now apply one_leb_nonzero.
  - intros tr lang lat cost Hs.
    rewrite (sarvam_cost_is_duration_times_price _ _ _ _ _ Hs).
    now apply sarvam_cost_positive.
  - now apply gemini_audio_cost_positive.
Qed.

(** X27.  For a file whose detected language is not English and
    whose translation call returns, the driver keeps the translation when it
    is a non-empty text and the transcript otherwise; the latency and the
    cost the call returned (cost 0 after a response that is not OK) are
    added to the translation totals, whether the file then gets its row or,
    the second transcription raising, an error row; in the row of the file
    they are added to the Sarvam latency and cost. *)
Theorem translation_step_of_a_file
  (folder_path file_path : AudioEval.path) (t : AudioEval.totals)
  (tr lang : value) (lat cost : float)
  (x : option str) (tl tc : float) :
  speech_to_text_sarvam file_path = inr (tr, lang, lat, cost) ->
  AudioEval.needs_translation lang = true ->
  translate_with_gemini tr lang = inr (x, tl, tc) ->
  let resp := AudioEval.sarvam_response x tr in
  let t' := AudioEval.add_translation tl tc (AudioEval.add_sarvam lat cost t) in
  let filename := AudioEval.relpath w file_path folder_path in
  ((forall s, x = Some s -> s <> [] -> resp = PyStr s)
   /\ (x = None \/ x = Some [] -> resp = tr))
  /\ AudioEval.total_translation_time t'
     = (AudioEval.total_translation_time t + tl)%float
  /\ AudioEval.total_translation_cost t'
     = (AudioEval.total_translation_cost t + tc)%float
  /\ process_file folder_path file_path t
     = match speech_to_text_gemini file_path with
       | inr (g, gl, gc) =>
           ([ AudioEval.Text filename;
              AudioEval.Secs1 (AudioEval.get_audio_duration w file_path);
              AudioEval.Obj resp;
              AudioEval.Secs2 (lat + tl)%float;
              AudioEval.Usd6 (cost + tc)%float;
              AudioEval.Text (py "Yes");
              AudioEval.Text g; AudioEval.Secs2 gl; AudioEval.Usd6 gc ],
            AudioEval.add_gemini gl gc t')
       | inl e => (AudioEval.error_row filename e, t')
       end
  /\ (forall response latency,
        AudioEval.post_translate w
          (AudioEval.translation_prompt py_repr tr lang)
        = inr (response, latency) ->
        AudioEval.ok response = false ->
        x = None /\ tl = latency /\ tc = 0%float).
Proof.
  intros Hs Hn Ht resp t' filename.
  split; [split|split; [reflexivity|split; [reflexivity|split]]].
  - intros s -> Hne. subst resp. simpl. now destruct s.
  - intros [->| ->]; reflexivity.
  - unfold AudioEval.process_file. fold filename. run_block.
    rewrite Hs, Hn, Ht.
    destruct (speech_to_text_gemini file_path) as [e|[[g gl] gc]];
      reflexivity.
  - intros response latency Hpost Hok.
    unfold AudioEval.translate_with_gemini, bind in Ht.
    rewrite Hpost, Hok in Ht. unfold Ok in Ht.
    injection Ht as <- <- <-. auto.
Qed.

(** C10.  The totals of the totals row are the sums, over all the files in
    order, of what each stage that returned accrued, also for the files
    that got an error row: a file whose Sarvam transcription (and
    translation, when needed) returned and whose second transcription
    raised has the error row, and its Sarvam and translation values are
    accrued. *)
Theorem totals_keep_what_failed_files_accrued (folder_path : AudioEval.path) :
  let files := audio_files folder_path in
  let t := snd (process_files folder_path files) in
  last (AudioEval.csv_rows (process_all_audio_files folder_path)) []
  = AudioEval.totals_row t
  /\ (AudioEval.total_sarvam_time t
      = sum_accrued (fun a => AudioEval.latency_of (AudioEval.by_sarvam a))
          files
      /\ AudioEval.total_sarvam_cost t
         = sum_accrued (fun a => AudioEval.cost_of (AudioEval.by_sarvam a))
             files
      /\ AudioEval.total_translation_time t
         = sum_accrued
             (fun a => AudioEval.latency_of (AudioEval.by_translation a))
             files
      /\ AudioEval.total_translation_cost t
         = sum_accrued
             (fun a => AudioEval.cost_of (AudioEval.by_translation a)) files
      /\ AudioEval.total_gemini_time t
         = sum_accrued (fun a => AudioEval.latency_of (AudioEval.by_gemini a))
             files
      /\ AudioEval.total_gemini_cost t
         = sum_accrued (fun a => AudioEval.cost_of (AudioEval.by_gemini a))
             files)
  /\ (forall file_path tr lang lat cost e,
        speech_to_text_sarvam file_path = inr (tr, lang, lat, cost) ->
        speech_to_text_gemini file_path = inl e ->
        (AudioEval.needs_translation lang = false ->
         file_row folder_path file_path
         = AudioEval.error_row (AudioEval.relpath w file_path folder_path) e
         /\ accrued file_path
            = AudioEval.mk_accrual (Some (lat, cost)) None None)
        /\ (forall x tl tc,
              AudioEval.needs_translation lang = true ->
              translate_with_gemini tr lang = inr (x, tl, tc) ->
              file_row folder_path file_path
              = AudioEval.error_row
                  (AudioEval.relpath w file_path folder_path) e
              /\ accrued file_path
                 = AudioEval.mk_accrual (Some (lat, cost)) (Some (tl, tc))
                     None)).
Proof.
  intros files t. subst t files.
  unfold AudioEval.process_all_audio_files.
  rewrite process_files_spec. simpl.
  split; [apply last_last|].
  split; [apply totals_are_sums|].
  intros file_path tr lang lat cost e Hs Hg.
  unfold AudioEval.file_row, AudioEval.process_file, AudioEval.accrued,
    AudioEval.gemini_stage.
  run_block. rewrite Hs, Hg. split.
  - intros ->. split; reflexivity.
  - intros x tl tc -> ->. split; reflexivity.
Qed.

End DriverFacts.

(* ================================================================== *)
(** * The audio pipeline on the sample runs *)
(* ================================================================== *)

Section DriverExamples.

Import AudioEval Scenarios.
Local Open Scope float_scope.

Local Abbreviation repr := Reference.repr.

(** C7 (amended) on a prompt of 400 characters and an answer of 80. *)
Lemma translation_cost_witness :
  translate_with_gemini repr long_translation long_text hindi
  = inr (Some answer_80, 1.5,
         flen (translation_prompt repr long_text hindi) / 4 * GEMINI_input_text
         + flen answer_80 / 4 * GEMINI_output_text)
  /\ translation_cost (translation_prompt repr long_text hindi) answer_80
     = 7.9999999999999993e-05.
Proof.
  destruct (translation_cost_is_token_based repr long_translation)
    as [H1 H2].
  split.
  - eapply H1; vm_compute; reflexivity.
  - apply H2; vm_compute; reflexivity.
Defined.

(** C7, as stated, fails: the cost of that call is not the double
    [0.00008]. *)
Lemma translation_cost_is_below_0_00008 :
  length (translation_prompt repr long_text hindi) = 400%nat
  /\ length answer_80 = 80%nat
  /\ PrimFloat.eqb
       (translation_cost (translation_prompt repr long_text hindi) answer_80)
       0.00008 = false.
Proof. repeat split; vm_compute; reflexivity. Qed.

(** C8 on a file of 3 MiB that cannot be decoded: 180 seconds. *)
Lemma failed_probe_witness :
  decode_length translated story
  = inl (mk_exn Exception (py "Decoding failed"))
  /\ get_audio_duration translated story = 180
  /\ PrimFloat.ltb 0 (180 * 0.00075) = true.
Proof.
  split; [reflexivity|].
  destruct (failed_probe_uses_the_size_estimate translated story
              (mk_exn Exception (py "Decoding failed")) eq_refl)
    as (H & _ & _ & _ & Hcost & _).
  split.
  - rewrite (H 3145728%Z eq_refl). vm_compute. reflexivity.
  - apply (Hcost (PyStr (py "namaste")) hindi 0.75). vm_compute. reflexivity.
Defined.

(** X27 on a translation request answered 503: the transcript is
    kept, and the 1.5 seconds are in the Sarvam latency of the row and in
    the translation total. *)
Lemma translation_step_witness :
  nth 2 (fst (process_file repr translation_unavailable clips story no_totals))
    NA = Obj (PyStr (py "namaste"))
  /\ nth 3
       (fst (process_file repr translation_unavailable clips story no_totals))
       NA = Secs2 2.25
  /\ total_translation_time
       (snd (process_file repr translation_unavailable clips story no_totals))
     = 1.5.
Proof.
  destruct (translation_step_of_a_file repr translation_unavailable
              clips story no_totals
              (PyStr (py "namaste")) hindi 0.75 (180 * 0.00075) None 1.5 0)
    as (_ & _ & _ & H & _); try (vm_compute; reflexivity).
  rewrite H. repeat split; vm_compute; reflexivity.
Defined.

(** C9.  The code on an OK answer to the translation request with an
    empty list of candidates: line 124 raises [IndexError] on it, where the
    same expression of the second transcription, in its [try], gives the
    text of lines 185-186.  The translation call raises; the file, whose
    transcript Sarvam returned, gets the error row, the second
    transcription is not requested, and the 1.5 seconds of the request are
    in no total. *)
Lemma translation_error_aborts_the_file :
  post_translate translation_without_candidates
    (translation_prompt repr (PyStr (py "namaste")) hindi)
  = inr (no_candidates, 1.5)
  /\ resp_json no_candidates = inr (PyDict [ entry "candidates" (PyList []) ])
  /\ translation_text (PyDict [ entry "candidates" (PyList []) ])
     = inl (mk_exn IndexError (py "list index out of range"))
  /\ gemini_text (PyDict [ entry "candidates" (PyList []) ])
     = inr (py "ERROR: Could not parse Gemini response")
  /\ speech_to_text_sarvam translation_without_candidates story
     = inr (PyStr (py "namaste"), hindi, 0.75, 180 * 0.00075)
  /\ process_file repr translation_without_candidates clips story no_totals
     = (error_row (py "story.wav")
          (mk_exn IndexError (py "list index out of range")),
        add_sarvam 0.75 (180 * 0.00075) no_totals)
  /\ total_translation_time
       (snd (process_file repr translation_without_candidates clips story
               no_totals)) = 0.
Proof. repeat split; vm_compute; reflexivity. Qed.

(** C10 on a file whose second transcription is answered 503: the file has
    the error row, and the totals row has its Sarvam and translation
    latency. *)
Lemma failed_file_witness :
  file_row repr transcription_unavailable clips story
  = error_row (py "story.wav")
      (mk_exn Exception (py "Gemini API Error 503: Service Unavailable"))
  /\ nth 3
       (last (csv_rows (process_all_audio_files repr transcription_unavailable
                          clips)) [])
       NA = Secs2 2.25.
Proof.
  destruct (totals_keep_what_failed_files_accrued repr
              transcription_unavailable clips) as (Hlast & _ & Hfile).
  split.
  - refine (proj1 (proj2 (Hfile story (PyStr (py "namaste")) hindi 0.75
                            (180 * 0.00075) _ _ _)
                     (Some (py "hello")) 1.5 _ _ _));
      vm_compute; reflexivity.
  - rewrite Hlast. vm_compute. reflexivity.
Defined.



End DriverExamples.

(* ================================================================== *)
(** * The audio pipeline: requests, answers and rows *)
(* ================================================================== *)

Section DriverMore.

Variable py_repr : value -> str.
Variable w : AudioEval.world.

Local Abbreviation speech_to_text_sarvam := (AudioEval.speech_to_text_sarvam w).
Local Abbreviation translate_with_gemini :=
  (AudioEval.translate_with_gemini py_repr w).
Local Abbreviation speech_to_text_gemini := (AudioEval.speech_to_text_gemini w).
Local Abbreviation gemini_attempts := (AudioEval.gemini_attempts w).
Local Abbreviation try_block := (AudioEval.try_block py_repr w).
Local Abbreviation process_file := (AudioEval.process_file py_repr w).
Local Abbreviation process_all_audio_files :=
  (AudioEval.process_all_audio_files py_repr w).
Local Abbreviation file_row := (AudioEval.file_row py_repr w).
Local Abbreviation audio_files := (AudioEval.audio_files w).

Ltac run_try :=
  unfold AudioEval.try_block, AudioEval.mbind, AudioEval.call,
    AudioEval.update, AudioEval.ret.

Local Abbreviation busy_before := (Retries.busy_before w).

Lemma gemini_attempts_after_429 (file_path : AudioEval.path) (k : nat) :
  k <= 2 -> busy_before file_path k ->
  gemini_attempts file_path 2 0 3 = gemini_attempts file_path 2 k (3 - k).
Proof.
  intros Hk Hb.
  destruct k as [|[|[|k]]]; [reflexivity| | |lia].
  - destruct (Hb 0) as (r & t & E & Hst); [lia|].
    cbn [AudioEval.gemini_attempts]. unfold bind at 1. rewrite E, Hst.
    reflexivity.
  - destruct (Hb 0) as (r & t & E & Hst); [lia|].
    destruct (Hb 1) as (r1 & t1 & E1 & Hst1); [lia|].
    cbn [AudioEval.gemini_attempts]. unfold bind at 1. rewrite E, Hst.
    simpl. unfold bind at 1. rewrite E1, Hst1. reflexivity.
Qed.

Lemma gemini_attempt_answered (file_path : AudioEval.path) (k left : nat)
  (response : AudioEval.response) (elapsed : float) :
  AudioEval.post_gemini w file_path k = inr (response, elapsed) ->
  AudioEval.status_code response <> 429%Z ->
  gemini_attempts file_path 2 k (S left)
  = if AudioEval.ok response then inr (response, elapsed)
    else Raise Exception
           (py "Gemini API Error "
            ++ str_of_int (AudioEval.status_code response)
            ++ py ": " ++ AudioEval.resp_text response).
Proof.
  intros E Hst. cbn [AudioEval.gemini_attempts]. unfold bind. rewrite E.
  apply Z.eqb_neq in Hst. rewrite Hst.
  now destruct (AudioEval.ok response).
Qed.

(** X1.  When the second transcription is answered 429 on its first [k]
    requests ([k] at most 2) and then OK, the call uses that answer, and
    the latency it returns is the time of that request alone: neither the
    requests answered 429 nor the waits are in it. *)
Theorem gemini_latency_is_that_of_the_answered_request
  (file_path : AudioEval.path) (k : nat)
  (response : AudioEval.response) (elapsed : float) :
  k <= 2 -> busy_before file_path k ->
  AudioEval.post_gemini w file_path k = inr (response, elapsed) ->
  AudioEval.status_code response <> 429%Z ->
  AudioEval.ok response = true ->
  gemini_attempts file_path 2 0 3 = inr (response, elapsed)
  /\ (forall text latency cost,
        speech_to_text_gemini file_path = inr (text, latency, cost) ->
        latency = elapsed).
Proof.
  intros Hk Hb E Hst Hok.
  assert (Ha : gemini_attempts file_path 2 0 3 = inr (response, elapsed)).
  { rewrite (gemini_attempts_after_429 file_path k Hk Hb).
    replace (3 - k) with (S (2 - k)) by lia.
    rewrite (gemini_attempt_answered file_path k _ response elapsed E Hst).
    now rewrite Hok. }
  split; [exact Ha|].
  intros text latency cost.
  unfold AudioEval.speech_to_text_gemini, bind.
  destruct (AudioEval.open_rb w file_path) as [e|u]; [discriminate|].
  change (2 + 1) with 3. rewrite Ha.
  destruct (AudioEval.resp_json response) as [e|body]; [discriminate|].
  destruct (AudioEval.gemini_text body) as [e|t]; [discriminate|].
  unfold Ok. now intros [= _ <- _].
Qed.

(** X2.  The second transcription sends at most three requests: what comes
    of them does not depend on the answer a fourth would get.  When all
    three are answered 429, the call raises the quota exception. *)
Theorem gemini_sends_at_most_three_requests
  (w' : AudioEval.world) (file_path : AudioEval.path) :
  ((forall i, i < 3 ->
      AudioEval.post_gemini w file_path i
      = AudioEval.post_gemini w' file_path i) ->
   gemini_attempts file_path 2 0 3
   = AudioEval.gemini_attempts w' file_path 2 0 3)
  /\ (busy_before file_path 3 ->
      gemini_attempts file_path 2 0 3
      = Raise Exception (py "Gemini API quota exceeded after retries.")).
Proof.
  split.
  - intros H. cbn [AudioEval.gemini_attempts].
    rewrite <- (H 0), <- (H 1), <- (H 2) by lia. reflexivity.
  - intros Hb.
    rewrite (gemini_attempts_after_429 file_path 2) by
      (try lia; intros i Hi; apply Hb; lia).
    destruct (Hb 2) as (r & t & E & Hst); [lia|].
    cbn [AudioEval.gemini_attempts Nat.sub]. unfold bind.
    rewrite E, Hst. reflexivity.
Qed.

(** X3.  Only the status 429 is retried: when a request of the second
    transcription gets another answer that is not OK, the call raises at
    once, with the status and the text of that answer in the message. *)
Theorem gemini_error_is_not_retried
  (file_path : AudioEval.path) (k : nat)
  (response : AudioEval.response) (elapsed : float) :
  k <= 2 -> busy_before file_path k ->
  AudioEval.open_rb w file_path = inr tt ->
  AudioEval.post_gemini w file_path k = inr (response, elapsed) ->
  AudioEval.status_code response <> 429%Z ->
  AudioEval.ok response = false ->
  speech_to_text_gemini file_path
  = Raise Exception
      (py "Gemini API Error " ++ str_of_int (AudioEval.status_code response)
       ++ py ": " ++ AudioEval.resp_text response).
Proof.
  intros Hk Hb Ho E Hst Hok.
  unfold AudioEval.speech_to_text_gemini, bind. rewrite Ho.
  change (2 + 1) with 3.
  rewrite (gemini_attempts_after_429 file_path k Hk Hb).
  replace (3 - k) with (S (2 - k)) by lia.
  rewrite (gemini_attempt_answered file_path k _ response elapsed E Hst).
  now rewrite Hok.
Qed.

(** X4.  When the answer of the second transcription is an object without
    candidates, or with an empty list of candidates, the call does not
    raise: it returns the text ["ERROR: Could not parse Gemini response"],
    with the latency of the request and the cost of the prompt, of the
    audio and of that text. *)
Theorem gemini_answer_without_candidates
  (file_path : AudioEval.path) (response : AudioEval.response)
  (elapsed : float) (d : dict) :
  AudioEval.open_rb w file_path = inr tt ->
  gemini_attempts file_path 2 0 3 = inr (response, elapsed) ->
  AudioEval.resp_json response = inr (PyDict d) ->
  lookup d (py "candidates") = None
  \/ lookup d (py "candidates") = Some (PyList []) ->
  let text := py "ERROR: Could not parse Gemini response" in
  speech_to_text_gemini file_path
  = inr (text, elapsed,
         (AudioEval.estimate_tokens AudioEval.gemini_prompt
          * AudioEval.GEMINI_input_text
          + AudioEval.get_audio_duration w file_path * 50
            * AudioEval.GEMINI_input_audio
          + AudioEval.estimate_tokens text * AudioEval.GEMINI_output_text)
         %float).
Proof.
  intros Ho Ha Hj Hc text.
  unfold AudioEval.speech_to_text_gemini, bind. rewrite Ho.
  change (2 + 1) with 3. rewrite Ha, Hj.
  assert (Ht : AudioEval.gemini_text (PyDict d) = inr text).
  { unfold AudioEval.gemini_text, item, bind.
    destruct Hc as [-> | ->]; reflexivity. }
  now rewrite Ht.
Qed.

(** X5.  When Sarvam answers with a status other than 200, the call raises
    with the status and the text of the answer; the file gets the error
    row with that exception, and no total changes. *)
Theorem sarvam_error_fails_the_file
  (folder_path file_path : AudioEval.path) (t : AudioEval.totals)
  (response : AudioEval.response) (latency : float) :
  AudioEval.open_rb w file_path = inr tt ->
  AudioEval.post_sarvam w file_path = inr (response, latency) ->
  AudioEval.status_code response <> 200%Z ->
  let e := mk_exn Exception
             (py "Sarvam API Error: "
              ++ str_of_int (AudioEval.status_code response)
              ++ py " - " ++ AudioEval.resp_text response) in
  speech_to_text_sarvam file_path = inl e
  /\ process_file folder_path file_path t
     = (AudioEval.error_row (AudioEval.relpath w file_path folder_path) e, t).
Proof.
  intros Ho Hp Hs e.
  assert (H : speech_to_text_sarvam file_path = inl e).
  { unfold AudioEval.speech_to_text_sarvam, bind. rewrite Ho, Hp.
    apply Z.eqb_neq in Hs. now rewrite Hs. }
  split; [exact H|].
  unfold AudioEval.process_file. run_try. now rewrite H.
Qed.

(** X6.  When the answer of Sarvam is an object without a language code,
    the detected language is ["Unknown"], which is not English, and
    without a transcript the transcript is ["No transcript available"]: the
    driver asks for the translation of that text. *)
Theorem sarvam_answer_without_language
  (file_path : AudioEval.path) (response : AudioEval.response)
  (latency : float) (d : dict) :
  AudioEval.open_rb w file_path = inr tt ->
  AudioEval.post_sarvam w file_path = inr (response, latency) ->
  AudioEval.status_code response = 200%Z ->
  AudioEval.resp_json response = inr (PyDict d) ->
  lookup d (py "language_code") = None ->
  exists transcript cost,
    speech_to_text_sarvam file_path
    = inr (transcript, PyStr (py "Unknown"), latency, cost)
    /\ AudioEval.needs_translation (PyStr (py "Unknown")) = true
    /\ (lookup d (py "transcript") = None ->
        transcript = PyStr (py "No transcript available")).
Proof.
  intros Ho Hp Hs Hj Hl.
  unfold AudioEval.speech_to_text_sarvam, bind. rewrite Ho, Hp, Hs, Hj.
  simpl. rewrite Hl.
  do 2 eexists. split; [reflexivity|]. split; [reflexivity|].
  now intros ->.
Qed.

(** X7.  For a file Sarvam detects as ["en-IN"] or ["en"] no translation is
    requested: whatever the translation service would answer, the file's
    row and the totals are the same.  The row keeps the transcript, says
    ["No"], and reports the latency and the cost of the transcription with
    0 added; the translation totals do not change. *)
Theorem english_file_is_not_translated
  (folder_path file_path : AudioEval.path) (t : AudioEval.totals)
  (tr lang : value) (lat cost : float) :
  speech_to_text_sarvam file_path = inr (tr, lang, lat, cost) ->
  lang = PyStr (py "en-IN") \/ lang = PyStr (py "en") ->
  let filename := AudioEval.relpath w file_path folder_path in
  let t' := AudioEval.add_sarvam lat cost t in
  process_file folder_path file_path t
  = match speech_to_text_gemini file_path with
    | inr (g, gl, gc) =>
        ([ AudioEval.Text filename;
           AudioEval.Secs1 (AudioEval.get_audio_duration w file_path);
           AudioEval.Obj tr;
           AudioEval.Secs2 (lat + 0)%float;
           AudioEval.Usd6 (cost + 0)%float;
           AudioEval.Text (py "No");
           AudioEval.Text g; AudioEval.Secs2 gl; AudioEval.Usd6 gc ],
         AudioEval.add_gemini gl gc t')
    | inl e => (AudioEval.error_row filename e, t')
    end
  /\ AudioEval.total_translation_time
       (snd (process_file folder_path file_path t))
     = AudioEval.total_translation_time t
  /\ AudioEval.total_translation_cost
       (snd (process_file folder_path file_path t))
     = AudioEval.total_translation_cost t
  /\ (forall answers,
        AudioEval.process_file py_repr (Retries.with_post_translate w answers)
          folder_path file_path t
        = process_file folder_path file_path t).
Proof.
  intros Hs Hl filename t'.
  assert (Hn : AudioEval.needs_translation lang = false)
    by (destruct Hl as [-> | ->]; reflexivity).
  assert (Hp : process_file folder_path file_path t
               = match speech_to_text_gemini file_path with
                 | inr (g, gl, gc) =>
                     ([ AudioEval.Text filename;
                        AudioEval.Secs1
                          (AudioEval.get_audio_duration w file_path);
                        AudioEval.Obj tr;
                        AudioEval.Secs2 (lat + 0)%float;
                        AudioEval.Usd6 (cost + 0)%float;
                        AudioEval.Text (py "No");
                        AudioEval.Text g; AudioEval.Secs2 gl;
                        AudioEval.Usd6 gc ],
                      AudioEval.add_gemini gl gc t')
                 | inl e => (AudioEval.error_row filename e, t')
                 end).
  { unfold AudioEval.process_file. fold filename. run_try.
    rewrite Hs, Hn.
    destruct (speech_to_text_gemini file_path) as [e|[[g gl] gc]];
      reflexivity. }
  split; [exact Hp|].
  split; [|split].
  - rewrite Hp.
    destruct (speech_to_text_gemini file_path) as [e|[[g gl] gc]];
      reflexivity.
  - rewrite Hp.
    destruct (speech_to_text_gemini file_path) as [e|[[g gl] gc]];
      reflexivity.
  - intros answers. rewrite Hp.
    unfold AudioEval.process_file. run_try.
    change (AudioEval.speech_to_text_sarvam
              (Retries.with_post_translate w answers) file_path)
      with (speech_to_text_sarvam file_path).
    rewrite Hs, Hn.
    change (AudioEval.speech_to_text_gemini
              (Retries.with_post_translate w answers) file_path)
      with (speech_to_text_gemini file_path).
    destruct (speech_to_text_gemini file_path) as [e|[[g gl] gc]];
      reflexivity.
Qed.

(** X8.  The summary raises [ZeroDivisionError] exactly when no audio file
    was found; the rows are then the totals row alone, with zero totals,
    and they are written before the summary. *)
Theorem empty_batch_fails_in_the_summary (folder_path : AudioEval.path) :
  (audio_files folder_path = [] ->
   AudioEval.csv_rows (process_all_audio_files folder_path)
   = [AudioEval.totals_row AudioEval.no_totals]
   /\ AudioEval.summary (process_all_audio_files folder_path)
      = Raise ZeroDivisionError (py "division by zero"))
  /\ (audio_files folder_path <> [] ->
      AudioEval.summary (process_all_audio_files folder_path) = inr tt).
Proof.
  unfold AudioEval.process_all_audio_files.
  rewrite (process_files_spec py_repr w). simpl.
  split.
  - intros ->. split; reflexivity.
  - intros Hne. rewrite length_app, length_map. simpl.
    destruct (audio_files folder_path) as [|f files]; [contradiction|].
    simpl. rewrite Nat.add_1_r. reflexivity.
Qed.

Lemma file_row_length (folder_path file_path : AudioEval.path) :
  length (file_row folder_path file_path) = 9.
Proof.
  unfold AudioEval.file_row, AudioEval.process_file. run_try.
  destruct (speech_to_text_sarvam file_path)
    as [e|[[[tr lang] lat] cost]]; [reflexivity|].
  destruct (AudioEval.needs_translation lang).
  - destruct (translate_with_gemini tr lang) as [e|[[x tl] tc]];
      [reflexivity|].
    destruct (speech_to_text_gemini file_path) as [e|[[g gl] gc]];
      reflexivity.
  - destruct (speech_to_text_gemini file_path) as [e|[[g gl] gc]];
      reflexivity.
Qed.

(** X9.  Every row written to the CSV file, of a file that succeeded, of a
    file that failed and of the totals, has as many cells as the header
    has columns: 9. *)
Theorem rows_have_the_columns_of_the_header (folder_path : AudioEval.path) :
  length (AudioEval.csv_header (process_all_audio_files folder_path)) = 9
  /\ Forall (fun r => length r = 9)
       (AudioEval.csv_rows (process_all_audio_files folder_path)).
Proof.
  unfold AudioEval.process_all_audio_files.
  rewrite (process_files_spec py_repr w). simpl.
  split; [reflexivity|].
  apply Forall_app. split.
  - apply Forall_map, Forall_forall. intros f _. apply file_row_length.
  - now constructor.
Qed.

(** X10.  When the translation request is answered OK with an object that
    has no candidates, the translation is the empty text: the call returns
    it with the latency of the request and the cost of the prompt alone,
    and the driver keeps the transcript. *)
Theorem translation_answer_without_candidates
  (text source_lang : value) (response : AudioEval.response)
  (latency : float) (d : dict) :
  let prompt := AudioEval.translation_prompt py_repr text source_lang in
  AudioEval.post_translate w prompt = inr (response, latency) ->
  AudioEval.ok response = true ->
  AudioEval.resp_json response = inr (PyDict d) ->
  lookup d (py "candidates") = None ->
  translate_with_gemini text source_lang
  = inr (Some [], latency,
         (AudioEval.estimate_tokens prompt * AudioEval.GEMINI_input_text
          + 0 * AudioEval.GEMINI_output_text)%float)
  /\ AudioEval.sarvam_response (Some []) text = text.
Proof.
  intros prompt Hp Hok Hj Hc. split; [|reflexivity].
  unfold AudioEval.translate_with_gemini, bind. fold prompt.
  rewrite Hp, Hok, Hj.
  unfold AudioEval.translation_text, get, bind. rewrite Hc. reflexivity.
Qed.

End DriverMore.

(* ================================================================== *)
(** * The requests and the rows on the sample runs *)
(* ================================================================== *)

Section DriverMoreExamples.

Import AudioEval Scenarios Retries.
Local Open Scope float_scope.

Local Abbreviation repr := Reference.repr.

Ltac busy :=
  let i := fresh "i" in
  let Hi := fresh "Hi" in
  intros i Hi;
  destruct i as [|[|[|i]]];
  try (do 2 eexists; split; reflexivity); lia.

(** X1 on a transcription answered 429 twice and then OK in 2 seconds. *)
Lemma gemini_latency_witness :
  gemini_attempts busy_twice story 2 0 3
  = inr (gemini_reply (py "hello there"), 2).
Proof.
  apply (proj1 (gemini_latency_is_that_of_the_answered_request
                  busy_twice story 2 (gemini_reply (py "hello there")) 2
                  (le_n 2) ltac:(busy) eq_refl ltac:(discriminate) eq_refl)).
Defined.

(** X2 on a transcription answered 429 every time. *)
Lemma gemini_quota_witness :
  gemini_attempts always_busy story 2 0 3
  = Raise Exception (py "Gemini API quota exceeded after retries.").
Proof.
  apply (proj2 (gemini_sends_at_most_three_requests
                  always_busy always_busy story)).
  busy.
Defined.

(** X3 on a transcription answered 429 and then 404. *)
Lemma gemini_error_witness :
  speech_to_text_gemini busy_then_missing story
  = Raise Exception (py "Gemini API Error 404: Not Found").
Proof.
  apply (gemini_error_is_not_retried busy_then_missing story 1 not_found 0.25);
    try reflexivity; try lia; try discriminate.
  busy.
Defined.

(** X4 on a transcription answered OK without candidates. *)
Lemma gemini_answer_without_candidates_witness :
  exists cost,
    speech_to_text_gemini transcription_blocked story
    = inr (py "ERROR: Could not parse Gemini response", 2, cost).
Proof.
  eexists.
  eapply (gemini_answer_without_candidates transcription_blocked story
            blocked 2); try reflexivity.
  left. reflexivity.
Defined.

(** X5 on a Sarvam answer 500. *)
Lemma sarvam_error_witness :
  process_file repr sarvam_down clips story no_totals
  = (error_row (py "story.wav")
       (mk_exn Exception
          (py "Sarvam API Error: 500 - Internal Server Error")),
     no_totals).
Proof.
  apply (proj2 (sarvam_error_fails_the_file repr sarvam_down clips story
                  no_totals _ 0.25 eq_refl eq_refl ltac:(discriminate))).
Defined.

(** X6 on a Sarvam answer without transcript and language. *)
Lemma sarvam_answer_without_language_witness :
  exists cost,
    speech_to_text_sarvam language_missing story
    = inr (PyStr (py "No transcript available"), PyStr (py "Unknown"),
           0.75, cost).
Proof.
  destruct (sarvam_answer_without_language language_missing story
              reply_without_language 0.75 _ eq_refl eq_refl eq_refl eq_refl
              eq_refl) as (transcript & cost & H & _ & Ht).
  exists cost. rewrite H, (Ht eq_refl). reflexivity.
Defined.

(** X7 on an English clip while the translation service is down. *)
Lemma english_file_witness :
  nth 5 (fst (process_file repr english_clip clips story no_totals)) NA
  = Text (py "No")
  /\ nth 2 (fst (process_file repr english_clip clips story no_totals)) NA
     = Obj (PyStr (py "good morning"))
  /\ total_translation_time
       (snd (process_file repr english_clip clips story no_totals)) = 0.
Proof.
  destruct (english_file_is_not_translated repr english_clip clips story
              no_totals (PyStr (py "good morning")) (PyStr (py "en-IN"))
              0.75 (2.5 * 0.00075) eq_refl (or_introl eq_refl))
    as (H & Ht & _).
  rewrite Ht, H. repeat split; vm_compute; reflexivity.
Defined.

(** X8 on a folder without audio files. *)
Lemma empty_batch_witness :
  csv_rows (process_all_audio_files repr no_clips clips)
  = [totals_row no_totals]
  /\ summary (process_all_audio_files repr no_clips clips)
     = Raise ZeroDivisionError (py "division by zero").
Proof.
  apply (proj1 (empty_batch_fails_in_the_summary repr no_clips clips)).
  reflexivity.
Defined.

(** X10 on a translation request answered OK without candidates. *)
Lemma translation_answer_without_candidates_witness :
  exists cost,
    translate_with_gemini repr translation_blocked
      (PyStr (py "namaste")) hindi
    = inr (Some [], 1.5, cost).
Proof.
  eexists.
  apply (proj1 (translation_answer_without_candidates repr translation_blocked
                  (PyStr (py "namaste")) hindi blocked 1.5 _
                  eq_refl eq_refl eq_refl eq_refl)).
Defined.

End DriverMoreExamples.

(* ================================================================== *)
(** * The structured output parser: what is lost and what is kept *)
(* ================================================================== *)

Section ParserMore.

Variable json_loads : str -> result value.
Variable literal_eval : str -> result value.
Variable json_dumps : value -> result str.
Variable py_repr : value -> str.

Local Abbreviation clean := MetaTags.clean.
Local Abbreviation error_record := MetaTags.error_record.
Local Abbreviation decode := (MetaTags.decode json_loads literal_eval).
Local Abbreviation stringify_value :=
  (MetaTags.stringify_value json_dumps py_repr).
Local Abbreviation stringify_items :=
  (MetaTags.stringify_items json_dumps py_repr).
Local Abbreviation parse :=
  (MetaTags.parse_meta_tags_json json_loads literal_eval json_dumps py_repr).

Lemma parse_of_other (s : str) (v : value) :
  decode (clean s) = inr v -> (forall d, v <> PyDict d) ->
  parse s = error_record.
Proof.
  intros Hd Hv. unfold MetaTags.parse_meta_tags_json, MetaTags.parse_body, bind.
  rewrite Hd. destruct v; try reflexivity. now destruct (Hv d).
Qed.

Lemma stringify_items_fails (d : dict) (k v : value) (e : exn) :
  In (k, v) d -> stringify_value v = inl e ->
  exists e', stringify_items d = inl e'.
Proof.
  induction d as [|[k' v'] d IH]; intros Hin Hv; [contradiction|].
  simpl. unfold bind. destruct Hin as [[= -> ->]|Hin].
  - rewrite Hv. eauto.
  - destruct (stringify_value v') as [e1|t]; [eauto|].
    destruct (IH Hin Hv) as [e' ->]. eauto.
Qed.

Lemma rstrip_cons (c : codepoint) (t : str) :
  isspace c = false -> rstrip (c :: t) = c :: rstrip t.
Proof.
  intros H. unfold rstrip; simpl. rewrite lstrip_app.
  destruct (forallb isspace (rev t)) eqn:E.
  - rewrite (lstrip_all_space _ E). simpl. now rewrite H.
  - now rewrite rev_app_distr.
Qed.

Lemma decode_either (s : str) (v : value) :
  json_loads (clean s) = inr v
  \/ (exists e, json_loads (clean s) = inl e
                /\ isinstance e JSONDecodeError = true
                /\ literal_eval (clean s) = inr v) ->
  decode (clean s) = inr v.
Proof.
  unfold MetaTags.decode.
  intros [-> | (e & -> & -> & ->)]; reflexivity.
Qed.

(** X11.  When the text parses, as JSON or as a Python literal, to a value
    that is not an object (a list, a string, a number, [null]), the record
    is the error record: every field is ["Error parsing"]. *)
Theorem value_that_is_not_an_object_gives_the_error_record
  (s : str) (v : value) :
  json_loads (clean s) = inr v
  \/ (exists e, json_loads (clean s) = inl e
                /\ isinstance e JSONDecodeError = true
                /\ literal_eval (clean s) = inr v) ->
  (forall d, v <> PyDict d) ->
  parse s = error_record.
Proof.
  intros H Hv. apply (parse_of_other s v); [|assumption].
  now apply decode_either.
Qed.

(** X12.  When one value of the parsed object cannot be turned into a
    string ([json.dumps] raises on a list or on a dictionary, which can
    happen after the Python-literal parse), the whole record is the error
    record: the fields that were present are lost too. *)
Theorem value_without_a_string_loses_the_record
  (s : str) (d : dict) (k v : value) (e : exn) :
  json_loads (clean s) = inr (PyDict d)
  \/ (exists e0, json_loads (clean s) = inl e0
                 /\ isinstance e0 JSONDecodeError = true
                 /\ literal_eval (clean s) = inr (PyDict d)) ->
  In (k, v) d ->
  nested v = true ->
  json_dumps v = inl e ->
  parse s = error_record.
Proof.
  intros Hl Hin Hn Hv. apply decode_either in Hl.
  assert (Hs : stringify_value v = inl e) by (destruct v; easy).
  destruct (stringify_items_fails d k v e Hin Hs) as [e' He'].
  unfold MetaTags.parse_meta_tags_json, MetaTags.parse_body, bind.
  rewrite Hl. now rewrite He'.
Qed.


(** X14.  When the strict JSON parse succeeds the Python-literal parse is
    not consulted; and a text that only parses as a Python literal, to the
    same value, gives the same record. *)
Theorem python_literal_gives_the_record_of_its_json
  (s s' : str) (v : value) (e : exn) :
  json_loads (clean s) = inr v ->
  (forall literal_eval',
      MetaTags.parse_meta_tags_json json_loads literal_eval' json_dumps
        py_repr s
      = parse s)
  /\ (json_loads (clean s') = inl e ->
      isinstance e JSONDecodeError = true ->
      literal_eval (clean s') = inr v ->
      parse s' = parse s).
Proof.
  intros Hl. split.
  - intros literal_eval'.
    unfold MetaTags.parse_meta_tags_json, MetaTags.parse_body,
      MetaTags.decode.
    now rewrite Hl.
  - intros Hj He Hv.
    unfold MetaTags.parse_meta_tags_json, MetaTags.parse_body,
      MetaTags.decode.
    now rewrite Hl, Hj, He, Hv.
Qed.

(** X15.  Only the tag [```json] opens a fence: of a text between [```]
    and [```], without [json] after the opening, the closing fence is
    removed and the opening one stays.  Since the cleaned text starts with
    backquotes, on which both parses raise, the record is the error
    record. *)
Theorem fence_without_the_json_tag_stays
  (s pre post : str) (e1 e2 : exn) :
  forallb isspace post = true ->
  startswith (pre ++ s ++ post ++ py "```") (py "json") = false ->
  let text := py "```" ++ pre ++ s ++ post ++ py "```" in
  clean text = py "```" ++ rstrip (pre ++ s)
  /\ (json_loads (clean text) = inl e1 ->
      literal_eval (clean text) = inl e2 ->
      parse text = error_record).
Proof.
  intros Hpost Htag text.
  assert (Hc : clean text = py "```" ++ rstrip (pre ++ s)).
  { subst text. unfold MetaTags.clean.
    set (T := py "```") in *.
    assert (Hw : strip (T ++ pre ++ s ++ post ++ T)
                 = T ++ pre ++ s ++ post ++ T).
    { replace (T ++ pre ++ s ++ post ++ T)
        with (96%N :: (py "``" ++ pre ++ s ++ post ++ py "``") ++ [96%N]).
      - now apply strip_delimited.
      - subst T. simpl. rewrite <- !app_assoc. reflexivity. }
    rewrite Hw.
    replace (startswith (T ++ pre ++ s ++ post ++ T) (py "```json"))
      with (startswith (pre ++ s ++ post ++ T) (py "json"))
      by reflexivity.
    rewrite Htag.
    replace (T ++ pre ++ s ++ post ++ T)
      with ((T ++ pre ++ s ++ post) ++ T) by now rewrite <- !app_assoc.
    rewrite endswith_app.
    change 3 with (length T). rewrite slice_drop_last_app.
    unfold strip. subst T.
    change (lstrip (py "```" ++ pre ++ s ++ post))
      with (py "```" ++ pre ++ s ++ post).
    replace (py "```" ++ pre ++ s ++ post)
      with ((py "```" ++ pre ++ s) ++ post) by now rewrite <- !app_assoc.
    rewrite rstrip_spaces by assumption.
    change (py "```" ++ pre ++ s) with (96%N :: 96%N :: 96%N :: pre ++ s).
    now rewrite !rstrip_cons by reflexivity. }
  split; [exact Hc|].
  intros H1 H2.
  assert (H : exists e, decode (clean text) = inl e).
  { unfold MetaTags.decode. rewrite H1, H2.
    destruct (isinstance e1 JSONDecodeError); eauto. }
  destruct H as [e He].
  apply (parse_of_failure json_loads literal_eval json_dumps py_repr
           text e He).
Qed.

End ParserMore.

Section ParserMoreExamples.

Local Abbreviation parse := Reference.parse_meta_tags_json.

(** X11 on a JSON list. *)
Lemma list_gives_the_error_record_witness :
  parse (Reference.dq "['kite', 'wind']") = MetaTags.error_record.
Proof.
  apply (value_that_is_not_an_object_gives_the_error_record
           Reference.loads Reference.leval Reference.dumps Reference.repr
           (Reference.dq "['kite', 'wind']")
           (PyList [PyStr (py "kite"); PyStr (py "wind")])).
  - left. vm_compute. reflexivity.
  - intros d. discriminate.
Defined.

(** X12 on a Python literal with a set in a list. *)
Lemma value_without_a_string_witness :
  MetaTags.parse_meta_tags_json
    Reference.loads Samples.leval Samples.dumps Reference.repr
    Samples.set_in_a_list
  = MetaTags.error_record.
Proof.
  pose (e0 := match Reference.loads Samples.set_in_a_list with
              | inl e => e
              | inr _ => mk_exn Exception []
              end).
  apply (value_without_a_string_loses_the_record
           Reference.loads Samples.leval Samples.dumps Reference.repr
           Samples.set_in_a_list Samples.set_in_a_list_value
           (PyStr (py "keywords")) (PyList [PyObj (py "{1, 2}")])
           (mk_exn TypeError
              (py "Object of type set is not JSON serializable"))).
  - right. exists e0. repeat split; vm_compute; reflexivity.
  - left. reflexivity.
  - reflexivity.
  - reflexivity.
Defined.


(** X14 on an object written with double and with single quotes. *)
Lemma python_literal_witness :
  parse (py "{'keywords': 'kite'}") = parse (Reference.dq "{'keywords': 'kite'}").
Proof.
  pose (e := match Reference.loads
                     (MetaTags.clean (py "{'keywords': 'kite'}")) with
             | inl e => e
             | inr _ => mk_exn Exception []
             end).
  apply (proj2 (python_literal_gives_the_record_of_its_json
                  Reference.loads Reference.leval Reference.dumps
                  Reference.repr (Reference.dq "{'keywords': 'kite'}")
                  (py "{'keywords': 'kite'}")
                  (PyDict [(PyStr (py "keywords"), PyStr (py "kite"))])
                  e eq_refl));
    vm_compute; reflexivity.
Defined.

(** X15 on the empty object between plain fences. *)
Lemma fence_without_the_json_tag_witness :
  parse (py "```" ++ py " " ++ py "{}" ++ [] ++ py "```")
  = MetaTags.error_record.
Proof.
  pose (e1 := match Reference.loads (py "``` {}") with
              | inl e => e
              | inr _ => mk_exn Exception []
              end).
  pose (e2 := match Reference.leval (py "``` {}") with
              | inl e => e
              | inr _ => mk_exn Exception []
              end).
  apply (proj2 (fence_without_the_json_tag_stays
                  Reference.loads Reference.leval Reference.dumps
                  Reference.repr (py "{}") (py " ") [] e1 e2
                  eq_refl eq_refl));
    vm_compute; reflexivity.
Defined.

End ParserMoreExamples.

(* ================================================================== *)
(** * The text pipeline: names of files *)
(* ================================================================== *)

Section NameFacts.

Import Stories.

Local Abbreviation other := (fun c : codepoint => negb (alnum c)).

Lemma alnum_not_dash (c : codepoint) : alnum c = true -> is_dash c = false.
Proof.
  unfold is_dash. destruct (N.eqb_spec c dash) as [->|]; [|reflexivity].
  discriminate.
Qed.

Lemma no_double_dash_cons (c : codepoint) (t : str) :
  no_double_dash (c :: t)
  = negb (is_dash c && dash_first t) && no_double_dash t.
Proof.
  destruct t; simpl; [|reflexivity].
  now rewrite andb_false_r.
Qed.

Lemma sub_runs_charset (b : bool) (s : str) :
  forallb (fun c => alnum c || is_dash c) (sub_runs other b s) = true.
Proof.
  revert b; induction s as [|c s IH]; intros b; simpl; [reflexivity|].
  destruct (alnum c) eqn:E; simpl.
  - now rewrite E, IH.
  - destruct b; simpl; apply IH.
Qed.

Lemma sub_runs_no_double_dash (b : bool) (s : str) :
  no_double_dash (sub_runs other b s) = true
  /\ (b = true -> dash_first (sub_runs other b s) = false).
Proof.
  revert b; induction s as [|c s IH]; intros b; [now split|].
  cbn [sub_runs]. destruct (alnum c) eqn:E; cbn [negb].
  - rewrite no_double_dash_cons, (alnum_not_dash c E).
    destruct (IH false) as [H _]. rewrite H.
    split; [reflexivity|intros _; exact (alnum_not_dash c E)].
  - destruct b.
    + apply IH.
    + destruct (IH true) as [H1 H2].
      rewrite no_double_dash_cons, H1, (H2 eq_refl).
      split; [reflexivity|discriminate].
Qed.

Lemma sub_runs_dash_id (b : bool) (s : str) :
  no_double_dash s = true -> (b = true -> dash_first s = false) ->
  sub_runs is_dash b s = s.
Proof.
  revert b; induction s as [|c s IH]; intros b H Hb; [reflexivity|].
  rewrite no_double_dash_cons in H. apply andb_prop in H as [Hc Hs].
  cbn [sub_runs]. destruct (is_dash c) eqn:E.
  - simpl in Hc. apply negb_true_iff in Hc.
    destruct b; [specialize (Hb eq_refl); simpl in Hb; congruence|].
    unfold is_dash in E. apply N.eqb_eq in E. subst c.
    f_equal. apply IH; auto.
  - f_equal. apply IH; [assumption|discriminate].
Qed.

Lemma lstrip_dashes_suffix (s : str) :
  exists l, s = l ++ lstrip_dashes s.
Proof.
  induction s as [|c s [l IH]]; simpl; [now exists []|].
  destruct (is_dash c).
  - exists (c :: l). simpl. now f_equal.
  - now exists [].
Qed.

Lemma lstrip_dashes_first (s : str) : dash_first (lstrip_dashes s) = false.
Proof.
  induction s as [|c s IH]; simpl; [reflexivity|].
  destruct (is_dash c) eqn:E; [assumption|exact E].
Qed.

Lemma strip_dashes_infix (s : str) :
  exists l r, s = l ++ strip_dashes s ++ r.
Proof.
  unfold strip_dashes.
  destruct (lstrip_dashes_suffix s) as [l Hl].
  destruct (lstrip_dashes_suffix (rev (lstrip_dashes s))) as [l' Hl'].
  exists l, (rev l'). rewrite <- rev_app_distr, <- Hl', rev_involutive.
  exact Hl.
Qed.

Lemma no_double_dash_app_r (a b : str) :
  no_double_dash (a ++ b) = true -> no_double_dash b = true.
Proof.
  induction a as [|c a IH]; [easy|].
  rewrite <- app_comm_cons, no_double_dash_cons.
  intros H. apply andb_prop in H as [_ H]. auto.
Qed.

Lemma no_double_dash_app_l (a b : str) :
  no_double_dash (a ++ b) = true -> no_double_dash a = true.
Proof.
  induction a as [|c a IH]; [easy|].
  rewrite <- app_comm_cons, !no_double_dash_cons.
  intros H. apply andb_prop in H as [H1 H2].
  rewrite (IH H2), andb_true_r.
  destruct a; [now rewrite andb_false_r|exact H1].
Qed.

Lemma strip_dashes_kebab (s : str) :
  forallb (fun c => alnum c || is_dash c) s = true ->
  no_double_dash s = true ->
  kebab (strip_dashes s) = true.
Proof.
  intros Hc Hn.
  destruct (strip_dashes_infix s) as (l & r & Hs).
  rewrite Hs in Hc, Hn.
  rewrite !forallb_app in Hc.
  apply andb_prop in Hc as [_ Hc]. apply andb_prop in Hc as [Hc _].
  apply no_double_dash_app_r, no_double_dash_app_l in Hn.
  unfold kebab. rewrite Hc, Hn. simpl.
  assert (Hlast : dash_first (rev (strip_dashes s)) = false).
  { unfold strip_dashes. rewrite rev_involutive.
    apply lstrip_dashes_first. }
  rewrite Hlast, andb_true_r.
  apply negb_true_iff.
  unfold strip_dashes.
  destruct (lstrip_dashes_suffix (rev (lstrip_dashes s))) as [l' Hl'].
  apply (f_equal (@rev codepoint)) in Hl'.
  rewrite rev_involutive, rev_app_distr in Hl'.
  pose proof (lstrip_dashes_first s) as Hf. rewrite Hl' in Hf.
  destruct (rev (lstrip_dashes (rev (lstrip_dashes s)))); [reflexivity|].
  exact Hf.
Qed.

Lemma split_dash_not_nil (s : str) : split_dash s <> [].
Proof.
  induction s as [|c s IH]; simpl; [discriminate|].
  destruct (is_dash c); [discriminate|].
  destruct (split_dash s); discriminate.
Qed.

Lemma split_dash_first (a b : str) :
  no_dash a = true -> split_dash (a ++ dash :: b) = a :: split_dash b.
Proof.
  induction a as [|c a IH]; simpl; [reflexivity|].
  intros H. apply andb_prop in H as [Hc Ha].
  apply negb_true_iff in Hc. now rewrite Hc, (IH Ha).
Qed.

Lemma split_dash_none (a : str) : no_dash a = true -> split_dash a = [a].
Proof.
  induction a as [|c a IH]; simpl; [reflexivity|].
  intros H. apply andb_prop in H as [Hc Ha].
  apply negb_true_iff in Hc. now rewrite Hc, (IH Ha).
Qed.

Lemma join_split (s : str) : join_dash (split_dash s) = s.
Proof.
  induction s as [|c s IH]; [reflexivity|].
  cbn [split_dash]. pose proof (split_dash_not_nil s) as Hn.
  destruct (split_dash s) as [|h t]; [contradiction|].
  destruct (is_dash c) eqn:E.
  - unfold is_dash in E. apply N.eqb_eq in E. subst c.
    cbn [join_dash app] in *. now rewrite IH.
  - destruct t as [|h' t].
    + cbn [join_dash] in *. now rewrite IH.
    + cbn [join_dash] in *. rewrite <- app_comm_cons. now rewrite IH.
Qed.

Lemma not_the_empty_name (lower : str -> str) (titles : list str) :
  existsb (str_eqb []) (map (title_to_filename lower) titles) = false.
Proof.
  induction titles as [|t titles IH]; [reflexivity|].
  cbn [map existsb]. rewrite IH, orb_false_r.
  unfold title_to_filename. cbv zeta.
  now destruct (strip_dashes _).
Qed.

(** X16.  The name the files are selected by is the text after the first
    hyphen of the file name: a file is processed when that text is the
    file name of one of the ten titles, whatever stands before the
    hyphen. *)
Theorem temp_name_is_the_text_after_the_first_hyphen
  (lower : str -> str) (a b : str) :
  no_dash a = true ->
  temp_name (a ++ dash :: b) = b
  /\ selected lower (a ++ dash :: b)
     = existsb (str_eqb b) (map (title_to_filename lower) valid_titles).
Proof.
  intros Ha.
  assert (H : temp_name (a ++ dash :: b) = b).
  { unfold temp_name. rewrite (split_dash_first a b Ha). cbn [tl].
    apply join_split. }
  split; [exact H|]. unfold selected. now rewrite H.
Qed.

(** X17.  A file whose name has no hyphen is never processed: the name it
    is selected by is the empty text, which is the file name of no
    title. *)
Theorem file_without_a_hyphen_is_not_selected
  (lower : str -> str) (x : str) :
  no_dash x = true ->
  temp_name x = [] /\ selected lower x = false.
Proof.
  intros Hx.
  assert (H : temp_name x = [])
    by (unfold temp_name; now rewrite (split_dash_none x Hx)).
  split; [exact H|]. unfold selected. rewrite H.
  apply not_the_empty_name.
Qed.

(** X18.  The file name of a title is in kebab case, whatever the title
    and whatever [str.lower] does: lower-case letters, digits and single
    dashes, no dash first or last, followed by [.txt].  The second
    substitution, of runs of dashes, changes nothing: the first one leaves
    no two dashes in a row. *)
Theorem file_name_of_a_title_is_in_kebab_case
  (lower : str -> str) (title : str) :
  (exists t, title_to_filename lower title = t ++ py ".txt"
             /\ kebab t = true)
  /\ sub_runs is_dash false (sub_runs other false (lower title))
     = sub_runs other false (lower title).
Proof.
  destruct (sub_runs_no_double_dash false (lower title)) as [Hn _].
  assert (Hid : sub_runs is_dash false (sub_runs other false (lower title))
                = sub_runs other false (lower title))
    by (apply sub_runs_dash_id; [exact Hn|discriminate]).
  split; [|exact Hid].
  unfold title_to_filename. cbv zeta. rewrite Hid.
  eexists; split; [reflexivity|].
  apply strip_dashes_kebab; [apply sub_runs_charset|exact Hn].
Qed.

(** X19.  The loop visits the first rows of the selected table: the first
    50 by default, the first [n] for a number [n] that is not negative,
    and all but the last [-n] for a negative [n]. *)
Theorem rows_the_loop_visits {A} (rows : list A) :
  rows_to_process None rows = firstn 50 rows
  /\ (forall n, (0 <= n)%Z ->
        rows_to_process (Some n) rows = firstn (Z.to_nat n) rows)
  /\ (forall n, (n < 0)%Z ->
        rows_to_process (Some n) rows
        = firstn (length rows - Z.to_nat (- n)) rows).
Proof.
  unfold rows_to_process, head. cbv zeta. repeat split.
  - rewrite <- Z.min_assoc, Z.min_id.
    destruct (Z.min_spec 50 (Z.of_nat (length rows))) as [[H ->]|[H ->]].
    + reflexivity.
    + rewrite Nat2Z.id.
      destruct (Z.leb_spec 0 (Z.of_nat (length rows))); [|lia].
      rewrite !firstn_all2; [reflexivity|lia|lia].
  - intros n Hn.
    destruct (Z.min_spec n (Z.of_nat (length rows))) as [[H ->]|[H ->]].
    + destruct (Z.leb_spec 0 n); [reflexivity|lia].
    + rewrite Nat2Z.id.
      destruct (Z.leb_spec 0 (Z.of_nat (length rows))); [|lia].
      rewrite !firstn_all2; [reflexivity|lia|lia].
  - intros n Hn.
    rewrite Z.min_l by lia.
    destruct (Z.leb_spec 0 n); [lia|reflexivity].
Qed.

End NameFacts.

(* ================================================================== *)
(** * The text pipeline: the tags of the stories and the report *)
(* ================================================================== *)

Section PipelineFacts.

Import Stories.

Variable json_loads : str -> result value.
Variable literal_eval : str -> result value.
Variable json_dumps : value -> result str.
Variable py_repr : value -> str.
Variable predictor : str -> result str.
Variable read_text : str -> result str.

Local Abbreviation parse :=
  (MetaTags.parse_meta_tags_json json_loads literal_eval json_dumps py_repr).
Local Abbreviation generate_meta_tags :=
  (Stories.generate_meta_tags json_loads literal_eval json_dumps py_repr
     predictor).
Local Abbreviation story_entries :=
  (Stories.story_entries json_loads literal_eval json_dumps py_repr
     predictor read_text).
Local Abbreviation collect :=
  (Stories.collect json_loads literal_eval json_dumps py_repr
     predictor read_text).
Local Abbreviation collect_results :=
  (Stories.collect_results json_loads literal_eval json_dumps py_repr
     predictor read_text).
Local Abbreviation expand_cell := (Stories.expand_cell json_loads).

Set Warnings "-inconsistent-scopes".

(** The entries of one row: twelve strings, the file name first. *)
Local Abbreviation entries_of row e :=
  (story_entries row = inr e
   /\ length e = 12
   /\ Forall (fun v => is_str v = true) e
   /\ nth 0 e PyNone = PyStr (fst row)).

(** The entry of a column, by row. *)
Local Abbreviation column i es :=
  (map (fun e : list value => nth i e PyNone) es).

Lemma failure_record_lookup (e : exn) (f : str) :
  In f MetaTags.required_fields ->
  exists t, lookup (failure_record e) f = Some (PyStr t).
Proof.
  intros H. simpl in H.
  repeat (destruct H as [<-|H]; [eexists; reflexivity|]). contradiction.
Qed.

Lemma generate_lookup (story_text : str) (f : str) :
  In f MetaTags.required_fields ->
  exists t, lookup (generate_meta_tags story_text) f = Some (PyStr t).
Proof.
  intros Hf. unfold Stories.generate_meta_tags.
  destruct (predictor (truncate story_text)) as [e|j].
  - now apply failure_record_lookup.
  - destruct (has_key_lookup _ _
                (parse_has_required json_loads literal_eval json_dumps
                   py_repr j f Hf)) as [v Hv].
    destruct (lookup_In _ _ _ Hv) as [k Hin].
    destruct (str_valued_In _ _ _
                (parse_str_valued json_loads literal_eval json_dumps
                   py_repr j) Hin) as [t ->].
    eauto.
Qed.

Lemma map_result_ok {A B} (f : A -> result B) (P : B -> Prop) (l : list A) :
  (forall a, In a l -> exists b, f a = inr b /\ P b) ->
  exists bs, map_result f l = inr bs /\ length bs = length l /\ Forall P bs.
Proof.
  induction l as [|a l IH]; intros H.
  - exists []. repeat split. constructor.
  - destruct (H a (or_introl eq_refl)) as (b & Hb & Pb).
    destruct IH as (bs & Hbs & Hlen & HP);
      [intros x Hx; apply H; now right|].
    exists (b :: bs). simpl. unfold bind. rewrite Hb, Hbs.
    repeat split; [simpl; now rewrite Hlen|now constructor].
Qed.

Lemma logged_fields_required (f : str) :
  In f logged_fields -> In f MetaTags.required_fields.
Proof.
  intros H. simpl in H.
  repeat (destruct H as [<-|H]; [simpl; tauto|]). contradiction.
Qed.

Lemma story_entries_total (row : str * str) :
  exists e, entries_of row e.
Proof.
  destruct row as [filename filepath].
  unfold Stories.story_entries.
  destruct (read_story_file read_text filepath) as [story_text|].
  - destruct (map_result_ok
                (item (PyDict (generate_meta_tags story_text)))
                (fun v => is_str v = true) MetaTags.required_fields)
      as (cells & Hc & Hlen & Hstr).
    { intros f Hf. destruct (generate_lookup story_text f Hf) as [t Ht].
      exists (PyStr t). simpl. now rewrite Ht. }
    destruct (map_result_ok
                (fun f => bind (item (PyDict (generate_meta_tags story_text))
                                  f) (fun v => slice_50 v))
                (fun _ => True) logged_fields)
      as (logged & Hl & _).
    { intros f Hf. apply logged_fields_required in Hf.
      destruct (generate_lookup story_text f Hf) as [t Ht].
      exists (PyStr (firstn 50 t)). simpl. now rewrite Ht. }
    exists (PyStr filename :: cells).
    rewrite Hc, Hl. unfold bind. repeat split.
    + simpl. now rewrite Hlen.
    + now constructor.
  - exists (unread_entries filename). repeat split.
    repeat constructor.
Qed.

Lemma collect_spec (rows : list (str * str)) (r0 : results) :
  exists es,
    Forall2 (fun row e => entries_of row e) rows es
    /\ collect rows r0 = inr (fold_left append_entries es r0).
Proof.
  revert r0; induction rows as [|row rows IH]; intros r0.
  - exists []. split; [constructor|reflexivity].
  - destruct (story_entries_total row) as (e & He).
    destruct (IH (append_entries r0 e)) as (es & Hes & Hc).
    exists (e :: es). split; [now constructor|].
    simpl. unfold bind. destruct He as (-> & _). exact Hc.
Qed.

Lemma append_entries_length (r : results) (e : list value) :
  length e = length r -> length (append_entries r e) = length r.
Proof.
  intros H. unfold append_entries.
  rewrite length_map, length_combine. lia.
Qed.

Lemma nth_error_append_entries (r : results) (e : list value) (i : nat) :
  length e = length r ->
  nth_error (append_entries r e) i
  = match nth_error r i with
    | Some cl => Some (fst cl, snd cl ++ [nth i e PyNone])
    | None => None
    end.
Proof.
  unfold append_entries.
  revert e i; induction r as [|[c l] r IH]; intros [|x e] [|i] H;
    try discriminate; try reflexivity.
  simpl. apply IH. simpl in H. lia.
Qed.

Lemma nth_error_fold (es : list (list value)) (r : results) (i : nat) :
  Forall (fun e => length e = length r) es ->
  nth_error (fold_left append_entries es r) i
  = match nth_error r i with
    | Some cl => Some (fst cl, snd cl ++ column i es)
    | None => None
    end.
Proof.
  revert r; induction es as [|e es IH]; intros r H.
  - simpl. destruct (nth_error r i) as [[c l]|]; [|reflexivity].
    simpl. now rewrite app_nil_r.
  - inversion H as [|? ? He Hes]; subst. simpl.
    rewrite IH.
    + rewrite (nth_error_append_entries r e i He).
      destruct (nth_error r i) as [[c l]|]; [|reflexivity].
      simpl. now rewrite <- app_assoc.
    + rewrite (append_entries_length r e He).
      exact Hes.
Qed.

Lemma collect_results_columns (rows : list (str * str)) :
  exists es,
    Forall2 (fun row e => entries_of row e) rows es
    /\ collect_results rows
       = inr (map (fun ci => (fst ci, column (snd ci) es))
                (combine columns (seq 0 12))).
Proof.
  unfold Stories.collect_results.
  destruct (collect_spec rows empty_results) as (es & Hes & ->).
  exists es. split; [exact Hes|]. f_equal.
  assert (Hlen : Forall (fun e : list value => length e
                                               = length empty_results) es).
  { clear -Hes. induction Hes as [|row e rows es (_ & H & _) _ IH];
      constructor; assumption. }
  apply nth_error_ext. intros i.
  rewrite (nth_error_fold es empty_results i Hlen).
  do 12 (destruct i as [|i]; [reflexivity|]).
  simpl. now destruct i.
Qed.

Lemma column_length (rows : list (str * str)) (es : list (list value))
  (i : nat) :
  Forall2 (fun row e => entries_of row e) rows es ->
  length (column i es) = length rows.
Proof.
  intros H. rewrite length_map. symmetry.
  induction H; simpl; congruence.
Qed.

Lemma column_strings (rows : list (str * str)) (es : list (list value))
  (i : nat) :
  i < 12 ->
  Forall2 (fun row e => entries_of row e) rows es ->
  Forall (fun v => is_str v = true) (column i es).
Proof.
  intros Hi H. induction H as [|row e rows es (_ & Hl & Hs & _) _ IH];
    simpl; constructor; [|exact IH].
  rewrite Forall_forall in Hs. apply Hs, nth_In. lia.
Qed.

Lemma column_of_names (rows : list (str * str)) (es : list (list value)) :
  Forall2 (fun row e => entries_of row e) rows es ->
  column 0 es = map (fun row => PyStr (fst row)) rows.
Proof.
  intros H. induction H as [|row e rows es (_ & _ & _ & H0) _ IH];
    simpl; [reflexivity|].
  now rewrite IH, <- H0.
Qed.

Lemma row_at (pre post : list (str * str)) (row : str * str) :
  exists r e,
    collect_results (pre ++ row :: post) = inr r
    /\ story_entries row = inr e
    /\ map (fun col => nth (length pre) (snd col) PyNone) r = e.
Proof.
  destruct (collect_results_columns (pre ++ row :: post))
    as (es & Hes & Hc).
  apply Forall2_app_inv_l in Hes as (es1 & es' & H1 & H2 & ->).
  inversion H2 as [|? e ? es2 (He & Hlen & _) _]; subst.
  eexists; exists e. split; [exact Hc|]. split; [exact He|].
  assert (Hn : forall i, nth (length pre) (column i (es1 ++ e :: es2)) PyNone
                         = nth i e PyNone).
  { intros i. rewrite map_app.
    rewrite app_nth2; rewrite length_map, <- (Forall2_length H1); [|lia].
    now rewrite Nat.sub_diag. }
  cbn [combine seq map fst snd columns MetaTags.required_fields].
  rewrite !Hn.
  do 12 (destruct e as [|? e]; [discriminate|]).
  destruct e; [reflexivity|discriminate].
Qed.

(** X20.  Whatever the predictor does (answer with any text, or raise),
    the tags of a story have the eleven fields, and every value is a
    string. *)
Theorem tags_of_a_story_have_the_eleven_fields (story_text : str) :
  (forall f, In f MetaTags.required_fields ->
     exists t, lookup (generate_meta_tags story_text) f = Some (PyStr t))
  /\ str_valued (generate_meta_tags story_text) = true.
Proof.
  split; [intros f; apply generate_lookup|].
  unfold Stories.generate_meta_tags.
  destruct (predictor (truncate story_text)) as [e|j]; [reflexivity|].
  apply parse_str_valued.
Qed.

(** X21.  Of a story of more than 10000 characters the predictor gets the
    first 10000, followed by three dots: two such stories that start with
    the same 10000 characters get the same tags. *)
Theorem text_after_10000_characters_is_not_read (s s' : str) :
  max_chars < length s ->
  max_chars < length s' ->
  firstn max_chars s = firstn max_chars s' ->
  generate_meta_tags s = generate_meta_tags s'
  /\ truncate s = firstn max_chars s ++ py "..."
  /\ length (truncate s) = max_chars + 3.
Proof.
  intros H H' Heq.
  assert (T : forall x, max_chars < length x ->
                        truncate x = firstn max_chars x ++ py "...").
  { intros x Hx. unfold truncate.
    now destruct (Nat.ltb_spec max_chars (length x)); [|lia]. }
  repeat split.
  - unfold Stories.generate_meta_tags. now rewrite (T s H), (T s' H'), Heq.
  - exact (T s H).
  - rewrite (T s H), length_app, firstn_length_le by lia. reflexivity.
Qed.

(** X22.  The loop over the rows never raises, and it keeps the columns
    in step: after it there are the twelve columns, each with one entry
    per row, every entry a string, and the first column holds the file
    names in the order of the rows. *)
Theorem every_story_fills_every_column (rows : list (str * str)) :
  exists r,
    collect_results rows = inr r
    /\ map fst r = columns
    /\ Forall (fun col => length (snd col) = length rows
                          /\ Forall (fun v => is_str v = true) (snd col)) r
    /\ lookup (map (fun col => (PyStr (fst col), PyList (snd col))) r)
         (py "filename")
       = Some (PyList (map (fun row => PyStr (fst row)) rows)).
Proof.
  destruct (collect_results_columns rows) as (es & Hes & Hc).
  eexists. split; [exact Hc|].
  cbn [combine seq map fst snd columns MetaTags.required_fields].
  split; [reflexivity|]. split.
  - repeat (constructor;
            [split; [apply (column_length rows es _ Hes)
                    |apply (column_strings rows es _); [lia|exact Hes]]|]).
    constructor.
  - cbn. now rewrite (column_of_names rows es Hes).
Qed.

(** X23.  A file that cannot be read has, at its place in every column,
    the entries of the error row: its name, ["Error: Could not read file"]
    and ["Error"] ten times.  The batch goes on. *)
Theorem unread_file_gets_the_error_row
  (pre post : list (str * str)) (filename filepath : str) (e : exn) :
  read_text filepath = inl e ->
  exists r,
    collect_results (pre ++ (filename, filepath) :: post) = inr r
    /\ map (fun col => nth (length pre) (snd col) PyNone) r
       = unread_entries filename.
Proof.
  intros Hr.
  destruct (row_at pre post (filename, filepath)) as (r & es & Hc & He & Hn).
  exists r. split; [exact Hc|]. rewrite Hn.
  unfold Stories.story_entries, read_story_file in He. rewrite Hr in He.
  now injection He.
Qed.

(** X24.  A story on which the predictor raises has, at its place in
    every column, its name, ["Error: "] with the message of the exception
    and ["Error"] ten times.  The batch goes on. *)
Theorem failed_prediction_gets_the_error_row
  (pre post : list (str * str)) (filename filepath content : str) (e : exn) :
  read_text filepath = inr content ->
  predictor (truncate (strip content)) = inl e ->
  exists r,
    collect_results (pre ++ (filename, filepath) :: post) = inr r
    /\ map (fun col => nth (length pre) (snd col) PyNone) r
       = PyStr filename :: PyStr (py "Error: " ++ exn_msg e)
         :: repeat (PyStr (py "Error")) 10.
Proof.
  intros Hr Hp.
  destruct (row_at pre post (filename, filepath)) as (r & es & Hc & He & Hn).
  exists r. split; [exact Hc|]. rewrite Hn.
  unfold Stories.story_entries, read_story_file,
    Stories.generate_meta_tags in He.
  rewrite Hr, Hp in He. cbv in He. now injection He as <-.
Qed.

(** X25.  A cell of the report has no line feed and no carriage return;
    it is as long as the text of the value, and it is that text when the
    text has no line break. *)
Theorem cell_of_the_report_has_no_line_break (v : value) :
  let cell := clean_cell py_repr v in
  no_line_break cell = true
  /\ length cell = length (py_str py_repr v)
  /\ (no_line_break (py_str py_repr v) = true -> cell = py_str py_repr v).
Proof.
  cbv zeta. unfold clean_cell, replace_char, no_line_break.
  generalize (py_str py_repr v) as s. intros s. repeat split.
  - induction s as [|c s IH]; simpl; [reflexivity|]. rewrite IH.
    destruct (N.eqb_spec c 10) as [->|H10]; [reflexivity|].
    destruct (N.eqb_spec c 13) as [->|H13]; [reflexivity|].
    apply N.eqb_neq in H10, H13. now rewrite H10, H13.
  - now rewrite !length_map.
  - induction s as [|c s IH]; simpl; [reflexivity|].
    intros H. apply andb_prop in H as [Hc Hs].
    apply andb_prop in Hc as [H10 H13].
    apply negb_true_iff in H10, H13. rewrite H10, H13, (IH Hs).
    reflexivity.
Qed.

(** X26.  A list or an object among the tags comes back in the JSON
    document: the parser stores the text [json.dumps] gives for it, the
    report keeps that text, and the JSON document holds what [json.loads]
    reads from it. *)
Theorem nested_value_comes_back_in_the_json_document (v : value) (t : str) :
  nested v = true ->
  json_dumps v = inr t ->
  startswith t (py "[") || startswith t (py "{") = true ->
  no_line_break t = true ->
  json_loads t = inr v ->
  MetaTags.stringify_value json_dumps py_repr v = inr t
  /\ expand_cell (clean_cell py_repr (PyStr t)) = v.
Proof.
  intros Hn Hd Hs Hb Hl. split; [destruct v; easy|].
  destruct (cell_of_the_report_has_no_line_break (PyStr t)) as (_ & _ & H).
  simpl in H. rewrite (H Hb).
  unfold Stories.expand_cell. now rewrite Hs, Hl.
Qed.

End PipelineFacts.

Section PipelineExamples.

Import Stories.

(** X16 on the file [12-let-s-play.txt]. *)
Lemma temp_name_witness :
  temp_name (py "12-let-s-play.txt") = py "let-s-play.txt"
  /\ selected ascii_lower (py "12-let-s-play.txt") = true.
Proof.
  destruct (temp_name_is_the_text_after_the_first_hyphen
              ascii_lower (py "12") (py "let-s-play.txt") eq_refl)
    as [H1 H2].
  refine (conj H1 (eq_trans H2 _)). vm_compute. reflexivity.
Defined.

(** X17 on the file [story.txt]. *)
Lemma file_without_a_hyphen_witness :
  temp_name (py "story.txt") = []
  /\ selected ascii_lower (py "story.txt") = false.
Proof.
  exact (file_without_a_hyphen_is_not_selected
           ascii_lower (py "story.txt") eq_refl).
Defined.

(** X21 on two stories of 10001 characters that differ in the last one. *)
Lemma text_after_10000_characters_witness :
  generate_meta_tags Reference.loads Reference.leval Reference.dumps
    Reference.repr Samples.predictor Samples.long_story
  = generate_meta_tags Reference.loads Reference.leval Reference.dumps
      Reference.repr Samples.predictor Samples.other_long_story
  /\ truncate Samples.long_story
     = firstn max_chars Samples.long_story ++ py "..."
  /\ length (truncate Samples.long_story) = max_chars + 3.
Proof.
  apply (text_after_10000_characters_is_not_read
           Reference.loads Reference.leval Reference.dumps Reference.repr
           Samples.predictor Samples.long_story Samples.other_long_story).
  - apply Nat.ltb_lt. vm_compute. reflexivity.
  - apply Nat.ltb_lt. vm_compute. reflexivity.
  - vm_compute. reflexivity.
Defined.

(** X23 on a batch of a readable file and a missing one. *)
Lemma unread_file_witness :
  exists r,
    collect_results Reference.loads Reference.leval Reference.dumps
      Reference.repr Samples.predictor Samples.read_text
      [ (py "12-let-s-play.txt", Samples.story_path);
        (py "7-missing.txt", py "STEM-text-files/7-missing.txt") ]
    = inr r
    /\ map (fun col => nth 1 (snd col) PyNone) r
       = unread_entries (py "7-missing.txt").
Proof.
  exact (unread_file_gets_the_error_row
           Reference.loads Reference.leval Reference.dumps Reference.repr
           Samples.predictor Samples.read_text
           [ (py "12-let-s-play.txt", Samples.story_path) ] []
           (py "7-missing.txt") (py "STEM-text-files/7-missing.txt")
           (mk_exn OSError (py "[Errno 2] No such file or directory"))
           eq_refl).
Defined.

(** X24 on a readable file and a predictor that raises. *)
Lemma failed_prediction_witness :
  exists r,
    collect_results Reference.loads Reference.leval Reference.dumps
      Reference.repr Samples.failing_predictor Samples.read_text
      [ (py "12-let-s-play.txt", Samples.story_path) ]
    = inr r
    /\ map (fun col => nth 0 (snd col) PyNone) r
       = PyStr (py "12-let-s-play.txt")
         :: PyStr (py "Error: quota exceeded")
         :: repeat (PyStr (py "Error")) 10.
Proof.
  exact (failed_prediction_gets_the_error_row
           Reference.loads Reference.leval Reference.dumps Reference.repr
           Samples.failing_predictor Samples.read_text
           [] [] (py "12-let-s-play.txt") Samples.story_path
           (py "  Let us play.  ")
           (mk_exn Exception (py "quota exceeded"))
           eq_refl eq_refl).
Defined.

(** X26 on a list of two keywords. *)
Lemma nested_value_witness :
  MetaTags.stringify_value Reference.dumps Reference.repr
    (PyList [PyStr (py "kite"); PyStr (py "wind")])
  = inr (Reference.dq "['kite', 'wind']")
  /\ expand_cell Reference.loads
       (clean_cell Reference.repr (PyStr (Reference.dq "['kite', 'wind']")))
     = PyList [PyStr (py "kite"); PyStr (py "wind")].
Proof.
  apply (nested_value_comes_back_in_the_json_document
           Reference.loads Reference.dumps Reference.repr
           (PyList [PyStr (py "kite"); PyStr (py "wind")])
           (Reference.dq "['kite', 'wind']"));
    vm_compute; reflexivity.
Defined.

End PipelineExamples.
